(** * bads.py: a stdin/stdout bridge around the BADS optimiser

    A shallow embedding of [bads.py] and of the parts of the Python
    runtime the script calls ([float], [str], [print], [input],
    [json.dumps], [json.loads], [ndarray.tolist]).

    Conventions of the model.
    - Python [str] is a Rocq [string]; a character stands for the code
      point of the same number (0..255).
    - A Python [float] is a binary64 value, [spec_float] with precision 53
      and maximal exponent 1024.
    - A computation that may raise returns a [res]; one that also talks to
      the terminal is an [IO] action over a [world] holding the lines still
      to be read on standard input and the trace of what was printed and
      read so far.  An exception nobody catches ends the process with a
      non-zero exit status; what was printed before stays printed.
    - Resource limits of the interpreter (stack depth of nested containers,
      memory, the digit limit of [int]) are not modelled; only the nesting
      of [default] conversions in the JSON encoder is bounded, since an
      arbitrary [default] may convert for ever. *)

From Stdlib Require Import ZArith NArith List String Ascii Bool Lia.
From Stdlib Require Import Decimal DecimalString DecimalN DecimalZ DecimalPos
  DecimalFacts.
From Stdlib Require Import SpecFloat.
Import ListNotations.

Set Warnings "-register-all".

Local Open Scope list_scope.
Local Open Scope string_scope.

(* ================================================================== *)
(** ** Text *)

Definition dquote : ascii := "034"%char.
Definition newline : ascii := "010"%char.

Definition char_in (c : ascii) (s : string) : bool :=
  existsb (Ascii.eqb c) (list_ascii_of_string s).

Definition is_digit (c : ascii) : bool :=
  let n := N_of_ascii c in (48 <=? n)%N && (n <=? 57)%N.

Fixpoint all_chars (p : ascii -> bool) (s : string) : bool :=
  match s with
  | EmptyString => true
  | String c r => p c && all_chars p r
  end.

Fixpoint repeat_char (c : ascii) (n : nat) : string :=
  match n with
  | O => EmptyString
  | S k => String c (repeat_char c k)
  end.

(** The longest prefix whose characters satisfy [p], and what follows. *)
Fixpoint span (p : ascii -> bool) (s : string) : string * string :=
  match s with
  | EmptyString => (EmptyString, EmptyString)
  | String c r =>
      if p c then let '(a, b) := span p r in (String c a, b)
      else (EmptyString, s)
  end.

Definition rev_string (s : string) : string :=
  string_of_list_ascii (List.rev (list_ascii_of_string s)).

Fixpoint drop_while (p : ascii -> bool) (s : string) : string :=
  match s with
  | EmptyString => EmptyString
  | String c r => if p c then drop_while p r else s
  end.

Definition lower (c : ascii) : ascii :=
  let n := N_of_ascii c in
  if (65 <=? n)%N && (n <=? 90)%N then ascii_of_N (n + 32) else c.

Fixpoint lower_string (s : string) : string :=
  match s with
  | EmptyString => EmptyString
  | String c r => String (lower c) (lower_string r)
  end.

(** Decimal numerals, as [int.__repr__] writes them and [int()] reads
    them back. *)
Definition str_of_N (n : N) : string := NilZero.string_of_uint (N.to_uint n).
Definition str_of_Z (z : Z) : string := NilZero.string_of_int (Z.to_int z).

(** The value of a run of decimal digits (0 for the empty run). *)
Definition N_of_digits (s : string) : N :=
  match NilEmpty.uint_of_string s with
  | Some u => N.of_uint u
  | None => 0%N
  end.

(* ================================================================== *)
(** ** Exceptions and results *)

Inductive exn : Type :=
| NameError (name : string)
| KeyError (key : string)
| IndexError
| TypeError
| ValueError
| JSONDecodeError            (* a subclass of ValueError *)
| EOFError
| RecursionError
| LibraryError (what : string)   (* raised inside the optimisation library *)
| OutsideModel.                  (* not a Python exception: the input names a
                                    code point above 255 *)

(** Every exception above derives from [Exception]; [except Exception]
    catches them all. *)
Definition is_Exception (e : exn) : bool := true.

Inductive res (A : Type) : Type :=
| Ok (a : A)
| Raise (e : exn).
Arguments Ok {A} a.
Arguments Raise {A} e.

Definition rbind {A B} (r : res A) (k : A -> res B) : res B :=
  match r with
  | Ok a => k a
  | Raise e => Raise e
  end.

Declare Scope res_scope.
Delimit Scope res_scope with res.
Notation "x <- c ;; k" := (rbind c (fun x => k))
  (at level 61, c at next level, right associativity) : res_scope.

(** [try: body except Exception as e: handler e] *)
Definition try_except {A} (body : res A) (handler : exn -> res A) : res A :=
  match body with
  | Ok a => Ok a
  | Raise e => if is_Exception e then handler e else Raise e
  end.

Fixpoint mapM {A B} (f : A -> res B) (l : list A) : res (list B) :=
  match l with
  | [] => Ok []
  | x :: r =>
      match f x with
      | Raise e => Raise e
      | Ok y => match mapM f r with
                | Raise e => Raise e
                | Ok ys => Ok (y :: ys)
                end
      end
  end.

(* ================================================================== *)
(** ** Floats: [float(str)] and [float.__repr__] *)

Definition pyfloat : Type := spec_float.

Definition prec : Z := 53.
Definition emax : Z := 1024.

Definition float_eqb (a b : pyfloat) : bool :=
  match a, b with
  | S754_zero s, S754_zero t => Bool.eqb s t
  | S754_infinity s, S754_infinity t => Bool.eqb s t
  | S754_nan, S754_nan => true
  | S754_finite s m e, S754_finite t n f =>
      Bool.eqb s t && Pos.eqb m n && Z.eqb e f
  | _, _ => false
  end.

(** The binary64 value nearest to [digits * 10^exp10] (ties to even), with
    the given sign: what the runtime's correctly rounded [strtod] returns
    for a decimal numeral.  Overflow gives an infinity, underflow a zero
    or a subnormal. *)
Definition float_of_decimal (neg : bool) (digits : N) (exp10 : Z) : pyfloat :=
  match digits with
  | N0 => S754_zero neg
  | Npos d =>
      if (0 <=? exp10)%Z
      then binary_round prec emax neg (d * Z.to_pos (10 ^ exp10)) 0
      else
        let '(q, e, l) :=
          SFdiv_core_binary prec emax (Zpos d) 0 (10 ^ (- exp10)) 0 in
        binary_round_aux prec emax neg q e l
  end.

(** Characters [str.isspace] accepts, among code points below 256. *)
Definition is_space (c : ascii) : bool :=
  let n := N_of_ascii c in
  ((9 <=? n) && (n <=? 13) || (28 <=? n) && (n <=? 32)
   || (n =? 133) || (n =? 160))%N.

Definition strip (s : string) : string :=
  rev_string (drop_while is_space (rev_string (drop_while is_space s))).

(** PEP 515: an underscore may stand only between two digits.  Returns the
    text without its underscores, or [None] when one is misplaced. *)
Fixpoint remove_underscores (prev : ascii) (s : string) : option string :=
  match s with
  | EmptyString => if Ascii.eqb prev "_" then None else Some EmptyString
  | String c r =>
      if Ascii.eqb c "_" then
        if is_digit prev then remove_underscores c r else None
      else
        if Ascii.eqb prev "_" && negb (is_digit c) then None
        else option_map (String c) (remove_underscores c r)
  end.

Definition split_sign (s : string) : bool * string :=
  match s with
  | String c r =>
      if Ascii.eqb c "-" then (true, r)
      else if Ascii.eqb c "+" then (false, r)
      else (false, s)
  | EmptyString => (false, s)
  end.

(** [[eE][sign]digits], consumed only when at least one digit follows. *)
Definition scan_exponent (s : string) : Z * string :=
  match s with
  | String c r =>
      if Ascii.eqb (lower c) "e" then
        let '(eneg, r1) := split_sign r in
        let '(ds, r2) := span is_digit r1 in
        match ds with
        | EmptyString => (0%Z, s)
        | _ => let v := Z.of_N (N_of_digits ds) in
               ((if eneg then - v else v)%Z, r2)
        end
      else (0%Z, s)
  | EmptyString => (0%Z, s)
  end.

(** An unsigned decimal numeral at the head of [s]: digits, an optional
    point and more digits, an optional exponent; at least one digit in all.
    Returns the digits as a natural number, the power of ten and the rest. *)
Definition scan_decimal (s : string) : option (N * Z * string) :=
  let '(ip, r1) := span is_digit s in
  let '(fp, r2) :=
    match r1 with
    | String c r =>
        if Ascii.eqb c "." then span is_digit r else (EmptyString, r1)
    | EmptyString => (EmptyString, r1)
    end in
  match ip ++ fp with
  | EmptyString => None
  | ds =>
      let '(e, r3) := scan_exponent r2 in
      Some (N_of_digits ds, (e - Z.of_nat (String.length fp))%Z, r3)
  end.

(** [inf], [infinity] and [nan], in any case. *)
Definition parse_inf_or_nan (neg : bool) (s : string) : option pyfloat :=
  let l := lower_string s in
  if String.eqb l "inf" || String.eqb l "infinity" then Some (S754_infinity neg)
  else if String.eqb l "nan" then Some S754_nan
  else None.

(** The builtin [float] applied to a [str]. *)
Definition py_float (s : string) : res pyfloat :=
  match remove_underscores "000"%char s with
  | None => Raise ValueError
  | Some t =>
      let '(neg, body) := split_sign (strip t) in
      match scan_decimal body with
      | Some (d, e, EmptyString) => Ok (float_of_decimal neg d e)
      | Some _ => Raise ValueError
      | None =>
          match parse_inf_or_nan neg body with
          | Some f => Ok f
          | None => Raise ValueError
          end
      end
  end.

(** The exact decimal expansion of [m * 2^e]: a pair [(M, E)] with
    [m * 2^e = M * 10^E]. *)
Definition exact_decimal (m : positive) (e : Z) : N * Z :=
  if (0 <=? e)%Z then (Npos m * 2 ^ Z.to_N e, 0%Z)%N
  else ((Npos m * 5 ^ Z.to_N (- e))%N, e).

Definition num_digits (n : N) : nat := String.length (str_of_N n).

(** The candidates with [p] significant digits around [M * 10^E]: the
    truncation and its successor.  The one that reads back as [f] is
    kept, the nearer one when both do (the even one on a tie). *)
Definition candidate (f : pyfloat) (neg : bool) (M : N) (E : Z) (p : nat)
  : option (N * Z) :=
  let L := num_digits M in
  if (L <=? p)%nat then Some (M, E)
  else
    let w := (10 ^ N.of_nat (L - p))%N in
    let lo := (M / w)%N in
    let r := (M mod w)%N in
    let hi := (lo + 1)%N in
    let E' := (E + Z.of_nat (L - p))%Z in
    let ok_lo := float_eqb (float_of_decimal neg lo E') f in
    let ok_hi := float_eqb (float_of_decimal neg hi E') f in
    match ok_lo, ok_hi with
    | true, true =>
        match (2 * r ?= w)%N with
        | Lt => Some (lo, E')
        | Gt => Some (hi, E')
        | Eq => if N.even lo then Some (lo, E') else Some (hi, E')
        end
    | true, false => Some (lo, E')
    | false, true => Some (hi, E')
    | false, false => None
    end.

(** The first [p], counting up from [p] for [fuel] steps, that has a
    candidate; the exact expansion when none has. *)
Fixpoint shortest (f : pyfloat) (neg : bool) (M : N) (E : Z)
  (fuel : nat) (p : nat) : N * Z :=
  match fuel with
  | O => (M, E)
  | S k =>
      match candidate f neg M E p with
      | Some c => c
      | None => shortest f neg M E k (S p)
      end
  end.

Definition strip_trailing_zeros (s : string) : string :=
  rev_string (drop_while (Ascii.eqb "0") (rev_string s)).

Definition insert_point (digits : string) (k : nat) : string :=
  substring 0 k digits ++ "." ++ substring k (String.length digits - k) digits.

(** [float.__repr__]: the shortest digits that read back as the same
    float, in positional notation when the decimal point falls within
    [-4 < decpt <= 16], in exponent notation otherwise. *)
Definition format_digits (c : N) (E : Z) : string :=
  let all := str_of_N c in
  let ds := strip_trailing_zeros all in
  let n := String.length ds in
  let decpt := (Z.of_nat (String.length all) + E)%Z in
  if ((decpt <=? -4) || (16 <? decpt))%Z then
    let x := (decpt - 1)%Z in
    let mant :=
      match ds with
      | String d EmptyString => String d EmptyString
      | String d r => String d ("." ++ r)
      | EmptyString => EmptyString
      end in
    let xs := str_of_N (Z.abs_N x) in
    mant ++ "e" ++ (if (x <? 0)%Z then "-" else "+")
         ++ repeat_char "0" (2 - String.length xs) ++ xs
  else if (decpt <=? 0)%Z then
    "0." ++ repeat_char "0" (Z.to_nat (- decpt)) ++ ds
  else if (Z.of_nat n <=? decpt)%Z then
    ds ++ repeat_char "0" (Z.to_nat decpt - n) ++ ".0"
  else insert_point ds (Z.to_nat decpt).

Definition float_repr (f : pyfloat) : string :=
  match f with
  | S754_nan => "nan"
  | S754_infinity s => if s then "-inf" else "inf"
  | S754_zero s => if s then "-0.0" else "0.0"
  | S754_finite s m e =>
      let '(M, E) := exact_decimal m e in
      let '(c, E') := shortest f s M E 17 1 in
      (if s then "-" else "") ++ format_digits c E'
  end.

(* ================================================================== *)
(** ** Values *)

(** The element of a numeric array: [ndarray.tolist] turns each into the
    Python scalar of the same value, whatever the width of the dtype. *)
Inductive npitem : Type :=
| ItInt (z : Z)
| ItFloat (f : pyfloat)
| ItBool (b : bool).

(** A numeric [numpy.ndarray]: a 0-d array holds one item, an array of
    more dimensions is the sequence of its sub-arrays along the first
    axis. *)
Inductive ndarray : Type :=
| NdItem (i : npitem)
| NdAxis (sub : list ndarray).

Inductive pyval : Type :=
| PyNone
| PyBool (b : bool)
| PyInt (z : Z)
| PyFloat (f : pyfloat)
| PyStr (s : string)
| PyList (l : list pyval)
| PyTuple (l : list pyval)
| PyDict (d : list (string * pyval))   (* insertion order; keys are [str] *)
| NpArray (a : ndarray)                (* numpy.ndarray *)
| NpInt64 (z : Z)                      (* numpy.int64 *)
| NpFloat64 (f : pyfloat)              (* numpy.float64, a subclass of float *)
| NpInt32 (z : Z)                      (* numpy.int32 *)
| NpFloat32 (f : pyfloat)              (* numpy.float32 *)
| PyObject (cls : string).             (* an instance of any other class *)

Definition dict : Type := list (string * pyval).

Definition item_value (i : npitem) : pyval :=
  match i with
  | ItInt z => PyInt z
  | ItFloat f => PyFloat f
  | ItBool b => PyBool b
  end.

(** [ndarray.tolist()] *)
Fixpoint tolist (a : ndarray) : pyval :=
  match a with
  | NdItem i => item_value i
  | NdAxis sub => PyList (map tolist sub)
  end.

(** *** Mappings *)

Fixpoint lookup (k : string) (d : dict) : option pyval :=
  match d with
  | [] => None
  | (k', v) :: r => if String.eqb k k' then Some v else lookup k r
  end.

Definition has_key (k : string) (d : dict) : bool :=
  match lookup k d with Some _ => true | None => false end.

(** [d[k] = v]: a key already present keeps its place. *)
Fixpoint set_item (k : string) (v : pyval) (d : dict) : dict :=
  match d with
  | [] => [(k, v)]
  | (k', v') :: r =>
      if String.eqb k k' then (k', v) :: r else (k', v') :: set_item k v r
  end.

Definition remove_key (k : string) (d : dict) : dict :=
  filter (fun kv => negb (String.eqb k (fst kv))) d.

(** [del d[k]] *)
Definition del_item (d : dict) (k : string) : res dict :=
  if has_key k d then Ok (remove_key k d) else Raise (KeyError k).

(** [obj[k]] for a string [k]: only a mapping can be indexed by one. *)
Definition subscript (obj : pyval) (k : string) : res pyval :=
  match obj with
  | PyDict d =>
      match lookup k d with
      | Some v => Ok v
      | None => Raise (KeyError k)
      end
  | _ => Raise TypeError
  end.

(** [l[i]] on a list of strings, as [sys.argv[1]]. *)
Definition list_index (l : list string) (i : nat) : res string :=
  match nth_error l i with
  | Some s => Ok s
  | None => Raise IndexError
  end.

(* ================================================================== *)
(** ** [repr] and [str] *)

Definition hex_digit (n : N) : ascii :=
  if (n <? 10)%N then ascii_of_N (48 + n) else ascii_of_N (87 + n).

Definition hex2 (c : ascii) : string :=
  let n := N_of_ascii c in
  String (hex_digit (n / 16)) (String (hex_digit (n mod 16)) EmptyString).

(** Code points [str.isprintable] accepts, below 256. *)
Definition is_printable (c : ascii) : bool :=
  let n := N_of_ascii c in
  ((32 <=? n) && (n <=? 126) || (161 <=? n) && negb (n =? 173))%N.

Fixpoint repr_chars (q : ascii) (s : string) : string :=
  match s with
  | EmptyString => EmptyString
  | String c r =>
      (if Ascii.eqb c q || Ascii.eqb c "\" then String "\" (String c EmptyString)
       else if Ascii.eqb c "009" then "\t"
       else if Ascii.eqb c "010" then "\n"
       else if Ascii.eqb c "013" then "\r"
       else if is_printable c then String c EmptyString
       else "\x" ++ hex2 c)
      ++ repr_chars q r
  end.

(** [str.__repr__]: single quotes, unless the text holds one and no
    double quote. *)
Definition repr_str (s : string) : string :=
  let q := if char_in "'" s && negb (char_in dquote s) then dquote
           else "'"%char in
  String q (repr_chars q s ++ String q EmptyString).

Section Printing.

(** How values of classes that are not builtin print: numpy's arrays and
    scalars, and other objects, through the [__repr__] and [__str__] of
    their own class. *)
Variable foreign_repr : pyval -> string.
Variable foreign_str : pyval -> string.

Fixpoint py_repr (v : pyval) : string :=
  match v with
  | PyNone => "None"
  | PyBool b => if b then "True" else "False"
  | PyInt z => str_of_Z z
  | PyFloat f => float_repr f
  | PyStr s => repr_str s
  | PyList l => "[" ++ String.concat ", " (map py_repr l) ++ "]"
  | PyTuple l =>
      match l with
      | [x] => "(" ++ py_repr x ++ ",)"
      | _ => "(" ++ String.concat ", " (map py_repr l) ++ ")"
      end
  | PyDict d =>
      "{" ++ String.concat ", "
               (map (fun kv => repr_str (fst kv) ++ ": " ++ py_repr (snd kv)) d)
          ++ "}"
  | _ => foreign_repr v
  end.

(** The builtin [str]. *)
Definition py_str (v : pyval) : string :=
  match v with
  | PyStr s => s
  | NpArray _ | NpInt64 _ | NpFloat64 _ | NpInt32 _ | NpFloat32 _
  | PyObject _ => foreign_str v
  | _ => py_repr v
  end.

End Printing.

(* ================================================================== *)
(** ** [json.dumps] *)

Definition hex4 (c : ascii) : string := "00" ++ hex2 c.

(** One character of a JSON string, as [ensure_ascii=True] writes it. *)
Definition escape_char (c : ascii) : string :=
  if Ascii.eqb c dquote then String "\" (String dquote EmptyString)
  else if Ascii.eqb c "\" then "\\"
  else if Ascii.eqb c "010" then "\n"
  else if Ascii.eqb c "013" then "\r"
  else if Ascii.eqb c "009" then "\t"
  else if Ascii.eqb c "008" then "\b"
  else if Ascii.eqb c "012" then "\f"
  else
    let n := N_of_ascii c in
    if ((32 <=? n) && (n <=? 126))%N then String c EmptyString
    else "\u" ++ hex4 c.

Fixpoint escape_chars (s : string) : string :=
  match s with
  | EmptyString => EmptyString
  | String c r => escape_char c ++ escape_chars r
  end.

Definition encode_basestring_ascii (s : string) : string :=
  String dquote (escape_chars s ++ String dquote EmptyString).

(** [allow_nan=True]: the three special floats have JavaScript names. *)
Definition encode_float (f : pyfloat) : string :=
  match f with
  | S754_nan => "NaN"
  | S754_infinity s => if s then "-Infinity" else "Infinity"
  | _ => float_repr f
  end.

(** The encoder on the types it knows, with [other] for the rest.  A
    list and a tuple are both written as an array; [numpy.float64] is a
    [float] and is written as one. *)
Fixpoint encode_with (other : pyval -> res string) (o : pyval) : res string :=
  match o with
  | PyNone => Ok "null"
  | PyBool b => Ok (if b then "true" else "false")
  | PyInt z => Ok (str_of_Z z)
  | PyFloat f | NpFloat64 f => Ok (encode_float f)
  | PyStr s => Ok (encode_basestring_ascii s)
  | PyList l | PyTuple l =>
      match mapM (encode_with other) l with
      | Ok items => Ok ("[" ++ String.concat ", " items ++ "]")
      | Raise e => Raise e
      end
  | PyDict d =>
      match
        mapM (fun kv =>
                match encode_with other (snd kv) with
                | Ok s => Ok (encode_basestring_ascii (fst kv) ++ ": " ++ s)
                | Raise e => Raise e
                end) d
      with
      | Ok items => Ok ("{" ++ String.concat ", " items ++ "}")
      | Raise e => Raise e
      end
  | NpArray _ | NpInt64 _ | NpInt32 _ | NpFloat32 _ | PyObject _ => other o
  end.

(** [JSONEncoder.encode] of a class whose [default] method is [default]:
    an object of an unknown type is replaced by [default(o)] and encoded
    in its turn.  [fuel] bounds how many such replacements may nest. *)
Fixpoint encode (default : pyval -> res pyval) (fuel : nat) (o : pyval)
  : res string :=
  encode_with
    (fun o' =>
       match fuel with
       | O => Raise RecursionError
       | S n =>
           match default o' with
           | Ok o'' => encode default n o''
           | Raise e => Raise e
           end
       end) o.

Definition recursion_limit : nat := 1000.

(** [json.dumps(obj, cls=C)], given [C.default]. *)
Definition json_dumps (default : pyval -> res pyval) (obj : pyval) : res string :=
  encode default recursion_limit obj.

(** [json.JSONEncoder.default]: the base class converts nothing. *)
Definition JSONEncoder_default (obj : pyval) : res pyval := Raise TypeError.

(* ================================================================== *)
(** ** [json.loads] *)

Definition is_json_ws (c : ascii) : bool :=
  Ascii.eqb c " " || Ascii.eqb c "009" || Ascii.eqb c "010" || Ascii.eqb c "013".

Definition skip_ws (s : string) : string := drop_while is_json_ws s.

Definition hex_value (c : ascii) : option N :=
  let n := N_of_ascii c in
  if ((48 <=? n) && (n <=? 57))%N then Some (n - 48)%N
  else if ((97 <=? n) && (n <=? 102))%N then Some (n - 87)%N
  else if ((65 <=? n) && (n <=? 70))%N then Some (n - 55)%N
  else None.

Definition unescape (c : ascii) : option ascii :=
  if Ascii.eqb c dquote then Some dquote
  else if Ascii.eqb c "\" then Some "\"%char
  else if Ascii.eqb c "/" then Some "/"%char
  else if Ascii.eqb c "b" then Some "008"%char
  else if Ascii.eqb c "f" then Some "012"%char
  else if Ascii.eqb c "n" then Some "010"%char
  else if Ascii.eqb c "r" then Some "013"%char
  else if Ascii.eqb c "t" then Some "009"%char
  else None.

Definition cons_char (c : ascii) (r : res (string * string))
  : res (string * string) :=
  match r with
  | Ok (t, rest) => Ok (String c t, rest)
  | Raise e => Raise e
  end.

(** The text of a JSON string whose opening quote was just read, and
    what follows its closing quote.  A raw control character is refused
    ([strict=True]). *)
Fixpoint scanstring (s : string) : res (string * string) :=
  match s with
  | EmptyString => Raise JSONDecodeError
  | String c r =>
      if Ascii.eqb c dquote then Ok (EmptyString, r)
      else if Ascii.eqb c "\" then
        match r with
        | String "u" (String h1 (String h2 (String h3 (String h4 r')))) =>
            match hex_value h1, hex_value h2, hex_value h3, hex_value h4 with
            | Some a, Some b, Some c', Some d =>
                let n := (((a * 16 + b) * 16 + c') * 16 + d)%N in
                if (n <? 256)%N then cons_char (ascii_of_N n) (scanstring r')
                else Raise OutsideModel
            | _, _, _, _ => Raise JSONDecodeError
            end
        | String "u" _ => Raise JSONDecodeError
        | String e r' =>
            match unescape e with
            | Some ch => cons_char ch (scanstring r')
            | None => Raise JSONDecodeError
            end
        | EmptyString => Raise JSONDecodeError
        end
      else if (N_of_ascii c <? 32)%N then Raise JSONDecodeError
      else cons_char c (scanstring r)
  end.

(** The three groups of a JSON number, each with the text it matched:
    an optional minus sign and either a lone zero or digits that do not
    start with zero; a point and at least one digit; [e] or [E], an
    optional sign and at least one digit.  The last two are optional. *)
Definition scan_integer (s : string) : option (string * string) :=
  let '(sign, r) :=
    match s with
    | String c r => if Ascii.eqb c "-" then ("-", r) else ("", s)
    | EmptyString => ("", s)
    end in
  match r with
  | String c r' =>
      if Ascii.eqb c "0" then Some (sign ++ "0", r')
      else if is_digit c then
        let '(ds, rest) := span is_digit r in Some (sign ++ ds, rest)
      else None
  | EmptyString => None
  end.

Definition scan_frac (s : string) : string * string :=
  match s with
  | String c r =>
      if Ascii.eqb c "." then
        match span is_digit r with
        | (EmptyString, _) => (EmptyString, s)
        | (ds, rest) => (String "." ds, rest)
        end
      else (EmptyString, s)
  | EmptyString => (EmptyString, s)
  end.

Definition scan_exp (s : string) : string * string :=
  match s with
  | String c r =>
      if Ascii.eqb c "e" || Ascii.eqb c "E" then
        let '(sign, r1) :=
          match r with
          | String c1 r1 =>
              if Ascii.eqb c1 "-" then ("-", r1)
              else if Ascii.eqb c1 "+" then ("+", r1)
              else ("", r)
          | EmptyString => ("", r)
          end in
        match span is_digit r1 with
        | (EmptyString, _) => (EmptyString, s)
        | (ds, rest) => (String c (sign ++ ds), rest)
        end
      else (EmptyString, s)
  | EmptyString => (EmptyString, s)
  end.

(** [int(text)] on an optional minus sign and digits. *)
Definition py_int (s : string) : Z :=
  match s with
  | String c r =>
      if Ascii.eqb c "-" then (- Z.of_N (N_of_digits r))%Z
      else Z.of_N (N_of_digits s)
  | EmptyString => 0%Z
  end.

(** A number: a [float] when it has a fraction or an exponent, an [int]
    otherwise. *)
Definition scan_number (s : string) : option (res pyval * string) :=
  match scan_integer s with
  | None => None
  | Some (integer, r1) =>
      let '(frac, r2) := scan_frac r1 in
      let '(exp, r3) := scan_exp r2 in
      match frac, exp with
      | EmptyString, EmptyString => Some (Ok (PyInt (py_int integer)), r3)
      | _, _ =>
          Some (match py_float (integer ++ frac ++ exp) with
                | Ok f => Ok (PyFloat f)
                | Raise e => Raise e
                end, r3)
      end
  end.

Fixpoint strip_prefix (p s : string) : option string :=
  match p, s with
  | EmptyString, _ => Some s
  | String a p', String b s' => if Ascii.eqb a b then strip_prefix p' s' else None
  | String _ _, EmptyString => None
  end.

Definition scan_constant (s : string) : option (pyval * string) :=
  match strip_prefix "null" s with
  | Some r => Some (PyNone, r)
  | None =>
  match strip_prefix "true" s with
  | Some r => Some (PyBool true, r)
  | None =>
  match strip_prefix "false" s with
  | Some r => Some (PyBool false, r)
  | None => None
  end end end.

Definition scan_nonfinite (s : string) : option (pyval * string) :=
  match strip_prefix "NaN" s with
  | Some r => Some (PyFloat S754_nan, r)
  | None =>
  match strip_prefix "Infinity" s with
  | Some r => Some (PyFloat (S754_infinity false), r)
  | None =>
  match strip_prefix "-Infinity" s with
  | Some r => Some (PyFloat (S754_infinity true), r)
  | None => None
  end end end.

(** [dict(pairs)]: a repeated key keeps its first place and its last
    value. *)
Definition dict_of_pairs (pairs : list (string * pyval)) : dict :=
  fold_left (fun d kv => set_item (fst kv) (snd kv) d) pairs [].

(** The scanner.  [scan_once] reads one value at the head of the text;
    [array_items] the items of an array whose bracket and leading blanks
    were read; [object_items] the members of an object, from just after
    the opening quote of a key.  Each call spends one unit of [fuel]. *)
Fixpoint scan_once (fuel : nat) (s : string) {struct fuel}
  : res (pyval * string) :=
  match fuel with
  | O => Raise RecursionError
  | S n =>
      match s with
      | EmptyString => Raise JSONDecodeError
      | String c r =>
          if Ascii.eqb c dquote then
            match scanstring r with
            | Ok (t, rest) => Ok (PyStr t, rest)
            | Raise e => Raise e
            end
          else if Ascii.eqb c "{" then
            match skip_ws r with
            | String c1 r1 =>
                if Ascii.eqb c1 "}" then Ok (PyDict [], r1)
                else if Ascii.eqb c1 dquote then
                  match object_items n r1 with
                  | Ok (pairs, rest) => Ok (PyDict (dict_of_pairs pairs), rest)
                  | Raise e => Raise e
                  end
                else Raise JSONDecodeError
            | EmptyString => Raise JSONDecodeError
            end
          else if Ascii.eqb c "[" then
            match skip_ws r with
            | String c1 r1 =>
                if Ascii.eqb c1 "]" then Ok (PyList [], r1)
                else
                  match array_items n (String c1 r1) with
                  | Ok (items, rest) => Ok (PyList items, rest)
                  | Raise e => Raise e
                  end
            | EmptyString => Raise JSONDecodeError
            end
          else
            match scan_constant s with
            | Some vr => Ok vr
            | None =>
            match scan_number s with
            | Some (Ok v, rest) => Ok (v, rest)
            | Some (Raise e, _) => Raise e
            | None =>
            match scan_nonfinite s with
            | Some vr => Ok vr
            | None => Raise JSONDecodeError
            end end end
      end
  end

with array_items (fuel : nat) (s : string) {struct fuel}
  : res (list pyval * string) :=
  match fuel with
  | O => Raise RecursionError
  | S n =>
      match scan_once n s with
      | Raise e => Raise e
      | Ok (v, r) =>
          match skip_ws r with
          | String c r1 =>
              if Ascii.eqb c "]" then Ok ([v], r1)
              else if Ascii.eqb c "," then
                match array_items n (skip_ws r1) with
                | Ok (vs, rest) => Ok (v :: vs, rest)
                | Raise e => Raise e
                end
              else Raise JSONDecodeError
          | EmptyString => Raise JSONDecodeError
          end
      end
  end

with object_items (fuel : nat) (s : string) {struct fuel}
  : res (list (string * pyval) * string) :=
  match fuel with
  | O => Raise RecursionError
  | S n =>
      match scanstring s with
      | Raise e => Raise e
      | Ok (key, r) =>
          match skip_ws r with
          | String c r1 =>
              if Ascii.eqb c ":" then
                match scan_once n (skip_ws r1) with
                | Raise e => Raise e
                | Ok (v, r2) =>
                    match skip_ws r2 with
                    | String c2 r3 =>
                        if Ascii.eqb c2 "}" then Ok ([(key, v)], r3)
                        else if Ascii.eqb c2 "," then
                          match skip_ws r3 with
                          | String c3 r4 =>
                              if Ascii.eqb c3 dquote then
                                match object_items n r4 with
                                | Ok (kvs, rest) => Ok ((key, v) :: kvs, rest)
                                | Raise e => Raise e
                                end
                              else Raise JSONDecodeError
                          | EmptyString => Raise JSONDecodeError
                          end
                        else Raise JSONDecodeError
                    | EmptyString => Raise JSONDecodeError
                    end
                end
              else Raise JSONDecodeError
          | EmptyString => Raise JSONDecodeError
          end
      end
  end.

(** Enough for any text: every call reads at least one character before
    it calls again twice. *)
Definition scan_fuel (s : string) : nat := 2 * String.length s + 1.

(** [json.loads(s)]: one value, blanks allowed around it, nothing after. *)
Definition json_loads (s : string) : res pyval :=
  match scan_once (scan_fuel s) (skip_ws s) with
  | Raise e => Raise e
  | Ok (v, rest) =>
      match skip_ws rest with
      | EmptyString => Ok v
      | _ => Raise JSONDecodeError
      end
  end.

(* ================================================================== *)
(** ** The terminal *)

Inductive event : Type :=
| Printed (line : string)    (* one call of [print], without its newline *)
| Read (line : string).      (* one call of [input] *)

Record world : Type := World {
  stdin : list string;       (* the lines not read yet *)
  trace : list event         (* what happened so far, oldest first *)
}.

Definition IO (A : Type) : Type := world -> res A * world.

Definition ret {A} (a : A) : IO A := fun w => (Ok a, w).

Definition bind {A B} (m : IO A) (k : A -> IO B) : IO B :=
  fun w =>
    match m w with
    | (Ok a, w') => k a w'
    | (Raise e, w') => (Raise e, w')
    end.

Definition lift {A} (r : res A) : IO A := fun w => (r, w).

Declare Scope io_scope.
Delimit Scope io_scope with io.
Notation "x <- c ;; k" := (bind c (fun x => k))
  (at level 61, c at next level, right associativity) : io_scope.
Notation "c ;;; k" := (bind c (fun _ => k))
  (at level 61, right associativity) : io_scope.

Definition print_line (text : string) : IO unit :=
  fun w => (Ok tt, World (stdin w) (trace w ++ [Printed text])).

(** [input()]: the next line of standard input, [EOFError] at its end. *)
Definition input : IO string :=
  fun w =>
    match stdin w with
    | [] => (Raise EOFError, w)
    | line :: rest => (Ok line, World rest (trace w ++ [Read line]))
    end.

Definition printed (t : list event) : list string :=
  flat_map (fun e => match e with Printed l => [l] | Read _ => [] end) t.

Definition consumed (t : list event) : list string :=
  flat_map (fun e => match e with Read l => [l] | Printed _ => [] end) t.

Definition starts_with (p s : string) : bool :=
  match strip_prefix p s with Some _ => true | None => false end.

Definition is_request (l : string) : bool := starts_with "REQUEST_EVALUATION" l.
Definition is_final (l : string) : bool := starts_with "FINAL_RESULT" l.

(** The exit status of the interpreter: 0 at the end of the script, 1
    after an exception nobody caught. *)
Definition exit_status {A} (r : res A) : Z :=
  match r with
  | Ok _ => 0%Z
  | Raise _ => 1%Z
  end.

(* ================================================================== *)
(** ** The optimisation library

    [BADS(target, x0, ...)] followed by [bads.optimize()] is a black box
    to the script: it asks for the objective at points of its choice, each
    chosen from the values it got so far, and ends by returning a result
    mapping or by raising.  An exception of the objective is not caught by
    the library. *)

Inductive optimizer : Type :=
| Evaluate (x : ndarray) (next : pyfloat -> optimizer)
| Return (result : dict)
| Fail (e : exn).

Fixpoint optimize (objective : ndarray -> IO pyfloat) (b : optimizer)
  : IO dict :=
  match b with
  | Evaluate x next =>
      fun w =>
        match objective x w with
        | (Ok y, w') => optimize objective (next y) w'
        | (Raise e, w') => (Raise e, w')
        end
  | Return result => ret result
  | Fail e => lift (Raise e)
  end.

(* ================================================================== *)
(** ** bads.py *)

Module NumpyEncoder.

(** [[
    def default(self, obj):
        if isinstance(obj, np.ndarray):   return obj.tolist()
        elif isinstance(obj, np.int64):   return int(obj)
        elif isinstance(obj, np.float64): return float(obj)
        return json.JSONEncoder.default(self, obj)
    ]] *)
Definition default (obj : pyval) : res pyval :=
  match obj with
  | NpArray a => Ok (tolist a)
  | NpInt64 z => Ok (PyInt z)
  | NpFloat64 f => Ok (PyFloat f)
  | _ => JSONEncoder_default obj
  end.

End NumpyEncoder.

(** The names bound in the module when its last line runs: the four
    imports, the class, the two functions and the three assignments. *)
Definition module_globals : list string :=
  ["BADS"; "np"; "json"; "sys"; "NumpyEncoder"; "jsonify"; "target";
   "conf"; "bads"; "result"].

(** The builtins the script refers to. *)
Definition builtin_names : list string :=
  ["isinstance"; "int"; "float"; "str"; "print"; "input"; "Exception"].

(** Evaluating a global name: module globals first, then builtins. *)
Definition load_global (name : string) : res unit :=
  if existsb (String.eqb name) (module_globals ++ builtin_names)
  then Ok tt
  else Raise (NameError name).

(** [logging.exception(msg)]: the name [logging] is evaluated first; the
    record itself would go to standard error. *)
Definition logging_exception (msg : string) : res unit :=
  rbind (load_global "logging") (fun _ => Ok tt).

Section Script.

Variable foreign_repr : pyval -> string.
Variable foreign_str : pyval -> string.

(** What the library does with the five values of the configuration. *)
Variable BADS : pyval -> pyval -> pyval -> pyval -> pyval -> optimizer.

(** [print(a, b, ...)] *)
Definition print (args : list pyval) : IO unit :=
  print_line (String.concat " " (map (py_str foreign_repr foreign_str) args)).

(** [[
    def jsonify(obj):
        try:
            return json.dumps(obj, cls=NumpyEncoder)
        except Exception as e:
            logging.exception("Error converting json, falling back on string")
            return str(obj)
    ]] *)
Definition jsonify (obj : pyval) : res string :=
  try_except (json_dumps NumpyEncoder.default obj)
    (fun e =>
       rbind (logging_exception "Error converting json, falling back on string")
         (fun _ => Ok (py_str foreign_repr foreign_str obj))).

(** [[
    def target(x):
        print("REQUEST_EVALUATION", x.tolist())
        return float(input())
    ]] *)
Definition target (x : ndarray) : IO pyfloat :=
  (print [PyStr "REQUEST_EVALUATION"; tolist x] ;;;
   line <- input ;;
   lift (py_float line))%io.

(** [[
    conf = json.loads(sys.argv[1])
    bads = BADS(target, conf["x0"], conf["lower_bounds"], conf["upper_bounds"],
                conf["plausible_lower_bounds"], conf["plausible_upper_bounds"])
    result = bads.optimize()
    del result['fun']
    print("FINAL_RESULT", jsonify(result))
    ]] *)
Definition main (argv : list string) : IO unit :=
  (arg <- lift (list_index argv 1) ;;
   conf <- lift (json_loads arg) ;;
   x0 <- lift (subscript conf "x0") ;;
   lb <- lift (subscript conf "lower_bounds") ;;
   ub <- lift (subscript conf "upper_bounds") ;;
   plb <- lift (subscript conf "plausible_lower_bounds") ;;
   pub <- lift (subscript conf "plausible_upper_bounds") ;;
   result <- optimize target (BADS x0 lb ub plb pub) ;;
   result <- lift (del_item result "fun") ;;
   text <- lift (jsonify (PyDict result)) ;;
   print [PyStr "FINAL_RESULT"; PyStr text])%io.

(** A run of the script from a fresh terminal. *)
Definition run (argv : list string) (inputs : list string) : res unit * world :=
  main argv (World inputs []).

End Script.

(* ================================================================== *)
(** ** Vocabulary of the properties *)

(** Printing with builtin classes only. *)
Definition plain_repr : pyval -> string := py_repr (fun _ => EmptyString).

Definition request_line (x : ndarray) : string :=
  "REQUEST_EVALUATION " ++ plain_repr (tolist x).

Definition final_line (text : string) : string := "FINAL_RESULT " ++ text.

(** The trace of a sequence of answered requests. *)
Definition exchanges (l : list (ndarray * string)) : list event :=
  flat_map (fun p => [Printed (request_line (fst p)); Read (snd p)]) l.

(** How the dialogue with the library ends. *)
Inductive ending : Type :=
| Returned (result : dict)
| LibraryFailed (e : exn)
| BadReply (x : ndarray) (line : string)   (* the reply is no number *)
| NoReply (x : ndarray).                   (* standard input is at its end *)

Definition ending_result (e : ending) : res dict :=
  match e with
  | Returned r => Ok r
  | LibraryFailed e => Raise e
  | BadReply _ _ => Raise ValueError
  | NoReply _ => Raise EOFError
  end.

Definition ending_events (e : ending) : list event :=
  match e with
  | BadReply x l => [Printed (request_line x); Read l]
  | NoReply x => [Printed (request_line x)]
  | _ => []
  end.


Definition is_ascii_printable (c : ascii) : bool :=
  let n := N_of_ascii c in ((32 <=? n) && (n <=? 126))%N.

(** A text of printable ASCII characters; such a text holds no newline. *)
Definition ascii_text (s : string) : bool := all_chars is_ascii_printable s.

Definition one_line (s : string) : bool :=
  all_chars (fun c => negb (Ascii.eqb c newline)) s.

(** Numbers and nested lists of numbers: what [tolist] returns. *)
Fixpoint numeric (v : pyval) : bool :=
  match v with
  | PyBool _ | PyInt _ | PyFloat _ => true
  | PyList l => forallb numeric l
  | _ => false
  end.

(** Values of the types JSON has: what [json.loads] returns. *)
Fixpoint plain (v : pyval) : bool :=
  match v with
  | PyNone | PyBool _ | PyInt _ | PyFloat _ | PyStr _ => true
  | PyList l => forallb plain l
  | PyDict d => forallb (fun kv => plain (snd kv)) d
  | _ => false
  end.

(** Values [NumpyEncoder] can write: the builtin types, tuples, and the
    three numpy types its [default] names. *)
Fixpoint supported (v : pyval) : bool :=
  match v with
  | PyNone | PyBool _ | PyInt _ | PyFloat _ | PyStr _ => true
  | PyList l | PyTuple l => forallb supported l
  | PyDict d => forallb (fun kv => supported (snd kv)) d
  | NpArray _ | NpInt64 _ | NpFloat64 _ => true
  | NpInt32 _ | NpFloat32 _ | PyObject _ => false
  end.

(** The plain value a supported value is written as. *)
Fixpoint to_plain (v : pyval) : pyval :=
  match v with
  | PyList l | PyTuple l => PyList (map to_plain l)
  | PyDict d => PyDict (map (fun kv => (fst kv, to_plain (snd kv))) d)
  | NpArray a => tolist a
  | NpInt64 z => PyInt z
  | NpFloat64 f => PyFloat f
  | _ => v
  end.

(** A float whose [repr] is a JSON number that reads back as the float
    ([nan] and the infinities are written as names). *)
Definition reads_back (f : pyfloat) : bool :=
  match f with
  | S754_nan | S754_infinity _ => true
  | _ =>
      match scan_number (float_repr f) with
      | Some (Ok (PyFloat g), EmptyString) => float_eqb g f
      | _ => false
      end
  end.

(** Plain data that survives a trip through JSON: lists, not tuples;
    mappings with distinct keys; floats that read back. *)
Fixpoint distinct_keys (ks : list string) : bool :=
  match ks with
  | [] => true
  | k :: r => negb (existsb (String.eqb k) r) && distinct_keys r
  end.

Fixpoint portable (v : pyval) : bool :=
  match v with
  | PyNone | PyBool _ | PyInt _ | PyStr _ => true
  | PyFloat f => reads_back f
  | PyList l => forallb portable l
  | PyDict d =>
      distinct_keys (map fst d) && forallb (fun kv => portable (snd kv)) d
  | _ => false
  end.

(** A text after which a number ends: empty, or starting with a character
    that cannot continue a JSON number. *)
Definition delimited (rest : string) : bool :=
  match rest with
  | EmptyString => true
  | String c _ =>
      negb (is_digit c) && negb (Ascii.eqb c ".")
      && negb (Ascii.eqb c "e") && negb (Ascii.eqb c "E")
      && negb (Ascii.eqb c "+") && negb (Ascii.eqb c "-")
  end.

(** A character a value may start with, as the scanner needs it: no
    blank and no closing bracket. *)
Definition value_start (c : ascii) : bool :=
  negb (is_json_ws c) && negb (Ascii.eqb c "]").

(** What reading back means for one value: the scanner, given the text
    an encoder wrote for [v], whatever number-ending text follows and
    fuel for the length of the text, returns [v] and stops there.  [o] is
    the encoder's treatment of foreign objects. *)
Definition reads (o : pyval -> res string) (v : pyval) : Prop :=
  forall s, encode_with o v = Ok s ->
  forall n rest, delimited rest = true -> String.length s <= n ->
  scan_once n (s ++ rest) = Ok (v, rest).

(** A scan ends within its text: it returns a strictly shorter rest, or
    raises something else than [RecursionError]. *)
Definition within {A} (s : string) (x : res (A * string)) : Prop :=
  match x with
  | Ok (_, r) => String.length r < String.length s
  | Raise e => e <> RecursionError
  end.




(** Lines 28 and 29 up to the call of the library: the argument is
    decoded and the five values are read, in this order. *)
Definition launch (BADS : pyval -> pyval -> pyval -> pyval -> pyval -> optimizer)
  (argv : list string) : res optimizer :=
  (arg <- list_index argv 1 ;;
   conf <- json_loads arg ;;
   x0 <- subscript conf "x0" ;;
   lb <- subscript conf "lower_bounds" ;;
   ub <- subscript conf "upper_bounds" ;;
   plb <- subscript conf "plausible_lower_bounds" ;;
   pub <- subscript conf "plausible_upper_bounds" ;;
   Ok (BADS x0 lb ub plb pub))%res.


(** A float with a decimal expansion: neither [nan] nor an infinity. *)
Definition is_finite (f : pyfloat) : bool :=
  match f with
  | S754_zero _ | S754_finite _ _ _ => true
  | S754_nan | S754_infinity _ => false
  end.

(** An entry that [repr] and JSON write alike: an integer, or a finite
    float that reads back. *)
Definition json_item (i : npitem) : bool :=
  match i with
  | ItInt _ => true
  | ItFloat f => is_finite f && reads_back f
  | ItBool _ => false
  end.

(** An entry whose [repr] only Python reads: a boolean ([True],
    [False]) or a float that is not finite ([inf], [-inf], [nan]). *)
Definition python_only (i : npitem) : bool :=
  match i with
  | ItInt _ => false
  | ItFloat f => negb (is_finite f)
  | ItBool _ => true
  end.

(** A point all of whose entries are such. *)
Fixpoint json_point (a : ndarray) : bool :=
  match a with
  | NdItem i => json_item i
  | NdAxis sub => forallb json_point sub
  end.

(** *** A sample session *)

Definition quoted (s : string) : string :=
  String dquote (s ++ String dquote EmptyString).

(** The configuration of the scenario in the specification. *)
Definition sample_config : string :=
  "{" ++ quoted "x0" ++ ":[0]," ++ quoted "lower_bounds" ++ ":[-1],"
      ++ quoted "upper_bounds" ++ ":[1],"
      ++ quoted "plausible_lower_bounds" ++ ":[-0.5],"
      ++ quoted "plausible_upper_bounds" ++ ":[0.5]}".

Definition sample_argv : list string := ["bads.py"; sample_config].

Definition no_repr (v : pyval) : string := "<object>".

Definition half : pyfloat := S754_finite false 4503599627370496 (-53).

(** A library that asks at two points and returns the better one. *)
Definition sample_BADS (x0 lb ub plb pub : pyval) : optimizer :=
  Evaluate (NdAxis [NdItem (ItFloat (S754_zero false))]) (fun y0 =>
  Evaluate (NdAxis [NdItem (ItFloat half)]) (fun y1 =>
  Return [("x", NpArray (NdAxis [NdItem (ItFloat half)]));
          ("fun", PyObject "function");
          ("fval", NpFloat64 y1);
          ("iterations", NpInt64 2);
          ("success", PyBool true)])).

(** Libraries that return at once, with a given result. *)
Definition returning (result : dict) (x0 lb ub plb pub : pyval) : optimizer :=
  Return result.

(** A point, a configuration with a key of its own, and a result with
    numpy values and a tuple. *)
Definition sample_point : ndarray :=
  NdAxis [NdItem (ItFloat half); NdItem (ItInt 3)].



(* ================================================================== *)
(** ** Induction over nested values *)

Definition ndarray_induction (P : ndarray -> Prop)
  (Hitem : forall i, P (NdItem i))
  (Haxis : forall sub, Forall P sub -> P (NdAxis sub))
  : forall a, P a :=
  fix go (a : ndarray) : P a :=
    match a with
    | NdItem i => Hitem i
    | NdAxis sub =>
        Haxis sub
          ((fix each (l : list ndarray) : Forall P l :=
              match l with
              | [] => Forall_nil P
              | x :: r => Forall_cons x (go x) (each r)
              end) sub)
    end.

Definition pyval_induction (P : pyval -> Prop)
  (Hnone : P PyNone)
  (Hbool : forall b, P (PyBool b))
  (Hint : forall z, P (PyInt z))
  (Hfloat : forall f, P (PyFloat f))
  (Hstr : forall s, P (PyStr s))
  (Hlist : forall l, Forall P l -> P (PyList l))
  (Htuple : forall l, Forall P l -> P (PyTuple l))
  (Hdict : forall d, Forall (fun kv => P (snd kv)) d -> P (PyDict d))
  (Harray : forall a, P (NpArray a))
  (Hi64 : forall z, P (NpInt64 z))
  (Hf64 : forall f, P (NpFloat64 f))
  (Hi32 : forall z, P (NpInt32 z))
  (Hf32 : forall f, P (NpFloat32 f))
  (Hobj : forall c, P (PyObject c))
  : forall v, P v :=
  fix go (v : pyval) : P v :=
    match v with
    | PyNone => Hnone
    | PyBool b => Hbool b
    | PyInt z => Hint z
    | PyFloat f => Hfloat f
    | PyStr s => Hstr s
    | PyList l =>
        Hlist l
          ((fix each (l : list pyval) : Forall P l :=
              match l with
              | [] => Forall_nil P
              | x :: r => Forall_cons x (go x) (each r)
              end) l)
    | PyTuple l =>
        Htuple l
          ((fix each (l : list pyval) : Forall P l :=
              match l with
              | [] => Forall_nil P
              | x :: r => Forall_cons x (go x) (each r)
              end) l)
    | PyDict d =>
        Hdict d
          ((fix each (l : list (string * pyval))
              : Forall (fun kv => P (snd kv)) l :=
              match l with
              | [] => Forall_nil _
              | kv :: r => Forall_cons kv (go (snd kv)) (each r)
              end) d)
    | NpArray a => Harray a
    | NpInt64 z => Hi64 z
    | NpFloat64 f => Hf64 f
    | NpInt32 z => Hi32 z
    | NpFloat32 f => Hf32 f
    | PyObject c => Hobj c
    end.
(* ================================================================== *)
(** ** Facts about text *)

Lemma all_chars_app p a b :
  all_chars p (a ++ b) = all_chars p a && all_chars p b.
Proof.
  induction a as [|c a IH]; simpl; [reflexivity|].
  now rewrite IH, andb_assoc.
Qed.

Lemma all_chars_weaken (p q : ascii -> bool) s :
  (forall c, p c = true -> q c = true) ->
  all_chars p s = true -> all_chars q s = true.
Proof.
  intros Hpq. induction s as [|c s IH]; simpl; [reflexivity|].
  intros H. apply andb_true_iff in H as [Hc Hs].
  now rewrite (Hpq _ Hc), IH.
Qed.

Lemma all_chars_of_list p l :
  all_chars p (string_of_list_ascii l) = forallb p l.
Proof. induction l as [|c l IH]; simpl; [reflexivity | now rewrite IH]. Qed.

Lemma forallb_list_of_string p s :
  forallb p (list_ascii_of_string s) = all_chars p s.
Proof. induction s as [|c s IH]; simpl; [reflexivity | now rewrite IH]. Qed.

Lemma all_chars_rev p s : all_chars p (rev_string s) = all_chars p s.
Proof.
  unfold rev_string. rewrite all_chars_of_list, <- forallb_list_of_string.
  generalize (list_ascii_of_string s) as l. intros l.
  induction l as [|c l IH]; simpl; [reflexivity|].
  rewrite forallb_app, IH. simpl. now rewrite andb_true_r, andb_comm.
Qed.

Lemma all_chars_drop_while p q s :
  all_chars p s = true -> all_chars p (drop_while q s) = true.
Proof.
  induction s as [|c s IH]; simpl; [reflexivity|].
  intros H. destruct (q c); [|exact H].
  apply andb_true_iff in H as [_ Hs]. now apply IH.
Qed.

Lemma all_chars_substring p s : forall n m,
  all_chars p s = true -> all_chars p (substring n m s) = true.
Proof.
  induction s as [|c s IH]; intros n m H; simpl.
  - now destruct n, m.
  - simpl in H. apply andb_true_iff in H as [Hc Hs].
    destruct n; [destruct m|]; simpl; auto.
    now rewrite Hc, IH.
Qed.

Lemma all_chars_repeat p c n : p c = true -> all_chars p (repeat_char c n) = true.
Proof. intros H. induction n; simpl; [reflexivity | now rewrite H, IHn]. Qed.

Lemma all_chars_concat p sep l :
  all_chars p sep = true ->
  forallb (all_chars p) l = true ->
  all_chars p (String.concat sep l) = true.
Proof.
  intros Hsep. induction l as [|x l IH]; simpl; [reflexivity|].
  intros H. apply andb_true_iff in H as [Hx Hl].
  destruct l as [|y l]; [exact Hx|].
  rewrite !all_chars_app, Hx, Hsep. simpl. now apply IH.
Qed.

Lemma ascii_text_one_line s : ascii_text s = true -> one_line s = true.
Proof.
  apply all_chars_weaken. intros c. unfold is_ascii_printable.
  destruct (Ascii.eqb_spec c newline) as [->|]; [discriminate | reflexivity].
Qed.

Lemma digits_uint p d :
  (forall c, is_digit c = true -> p c = true) ->
  all_chars p (NilEmpty.string_of_uint d) = true.
Proof.
  intros H. induction d; simpl; rewrite ?IHd, ?andb_true_r; try reflexivity;
    apply H; reflexivity.
Qed.

Lemma str_of_N_digits p n :
  (forall c, is_digit c = true -> p c = true) ->
  all_chars p (str_of_N n) = true.
Proof.
  intros H. unfold str_of_N, NilZero.string_of_uint.
  destruct (N.to_uint n) eqn:E; try (rewrite <- E; now apply digits_uint).
  simpl. rewrite andb_true_r. apply H. reflexivity.
Qed.

Lemma is_digit_printable c : is_digit c = true -> is_ascii_printable c = true.
Proof.
  unfold is_digit, is_ascii_printable. intros H.
  apply andb_true_iff in H as [H1 H2].
  apply N.leb_le in H1, H2. apply andb_true_iff. split; apply N.leb_le; lia.
Qed.

Lemma str_of_Z_text z : ascii_text (str_of_Z z) = true.
Proof.
  unfold ascii_text, str_of_Z, NilZero.string_of_int.
  destruct (Z.to_int z) as [d|d].
  - unfold NilZero.string_of_uint. destruct d; try reflexivity;
      apply (digits_uint is_ascii_printable); apply is_digit_printable.
  - simpl. unfold NilZero.string_of_uint. destruct d; try reflexivity;
      apply (digits_uint is_ascii_printable); apply is_digit_printable.
Qed.

Lemma strip_trailing_zeros_text p s :
  all_chars p s = true -> all_chars p (strip_trailing_zeros s) = true.
Proof.
  intros H. unfold strip_trailing_zeros.
  rewrite all_chars_rev. apply all_chars_drop_while. now rewrite all_chars_rev.
Qed.

Lemma format_digits_text c E : ascii_text (format_digits c E) = true.
Proof.
  unfold ascii_text, format_digits.
  assert (Hall : forall n, all_chars is_ascii_printable (str_of_N n) = true)
    by (intros n; apply str_of_N_digits, is_digit_printable).
  pose proof (strip_trailing_zeros_text is_ascii_printable _ (Hall c)) as Hds.
  set (ds := strip_trailing_zeros (str_of_N c)) in *.
  destruct (_ || _).
  - rewrite !all_chars_app, Hall, all_chars_repeat by reflexivity.
    assert (Hm : all_chars is_ascii_printable
                   match ds with
                   | EmptyString => EmptyString
                   | String d EmptyString => String d EmptyString
                   | String d r => String d ("." ++ r)
                   end = true).
    { destruct ds as [|d [|d' r]]; simpl in *; auto. }
    destruct ds as [|d [|d' r]]; rewrite Hm; now destruct (_ <? _)%Z.
  - destruct (_ <=? 0)%Z.
    + rewrite !all_chars_app, Hds, all_chars_repeat by reflexivity. reflexivity.
    + destruct (_ <=? _)%Z.
      * rewrite !all_chars_app, Hds, all_chars_repeat by reflexivity. reflexivity.
      * unfold insert_point. rewrite !all_chars_app.
        rewrite !all_chars_substring by exact Hds. reflexivity.
Qed.

Lemma float_repr_text f : ascii_text (float_repr f) = true.
Proof.
  destruct f as [s|s| |s m e]; try (now destruct s); try reflexivity.
  unfold float_repr.
  destruct (exact_decimal m e) as [M E].
  destruct (shortest (S754_finite s m e) s M E 17 1) as [c E'].
  unfold ascii_text. rewrite all_chars_app.
  fold (ascii_text (format_digits c E')). rewrite format_digits_text.
  now destruct s.
Qed.

Lemma encode_float_text f : ascii_text (encode_float f) = true.
Proof.
  destruct f as [s|s| |s m e]; try apply float_repr_text;
    simpl; try (now destruct s); reflexivity.
Qed.

(* ================================================================== *)
(** ** What [tolist] returns and how it prints *)

Lemma tolist_numeric a : numeric (tolist a) = true.
Proof.
  induction a as [i|sub IH] using ndarray_induction.
  - now destruct i.
  - simpl. induction IH as [|x r Hx _ IHr]; simpl; [reflexivity|].
    now rewrite Hx, IHr.
Qed.

Lemma numeric_plain v : numeric v = true -> plain v = true.
Proof.
  induction v as [| | | | |l IH|l IH|d IH| | | | | |] using pyval_induction;
    simpl; try congruence.
  induction IH as [|x r Hx _ IHr]; simpl; [reflexivity|].
  intros H. apply andb_true_iff in H as [H1 H2]. now rewrite Hx, IHr.
Qed.

Lemma numeric_repr fr v : numeric v = true -> py_repr fr v = plain_repr v.
Proof.
  unfold plain_repr.
  induction v as [| | | | |l IH|l IH|d IH| | | | | |] using pyval_induction;
    simpl; try congruence; try reflexivity.
  intros H.
  assert (E : map (py_repr fr) l = map (py_repr (fun _ => EmptyString)) l).
  { induction IH as [|x r Hx _ IHr]; simpl in *; [reflexivity|].
    apply andb_true_iff in H as [H1 H2]. now rewrite Hx, IHr. }
  now rewrite E.
Qed.

Lemma numeric_str fr fs v : numeric v = true -> py_str fr fs v = plain_repr v.
Proof.
  intros H. destruct v; try discriminate; simpl;
    try reflexivity.
  now apply (numeric_repr fr (PyList l)).
Qed.

Lemma py_repr_list fr l :
  py_repr fr (PyList l) = "[" ++ String.concat ", " (map (py_repr fr) l) ++ "]".
Proof. reflexivity. Qed.




Lemma request_line_not_final x : is_final (request_line x) = false.
Proof. reflexivity. Qed.


Lemma final_line_not_request t : is_request (final_line t) = false.
Proof. reflexivity. Qed.

(* ================================================================== *)
(** ** The dialogue with the evaluator *)

Lemma py_float_raises s e : py_float s = Raise e -> e = ValueError.
Proof.
  unfold py_float.
  destruct (remove_underscores _ s) as [t|]; [|congruence].
  destruct (split_sign (strip t)) as [neg body].
  destruct (scan_decimal body) as [[[d x] [|c r]]|]; try congruence.
  destruct (parse_inf_or_nan neg body); congruence.
Qed.

Lemma exit_status_raise A (e : exn) : exit_status (@Raise A e) = 1%Z.
Proof. reflexivity. Qed.

Lemma printed_app t u : printed (t ++ u) = (printed t ++ printed u)%list.
Proof. unfold printed. apply flat_map_app. Qed.


Lemma printed_exchanges pairs :
  printed (exchanges pairs) = map (fun p => request_line (fst p)) pairs.
Proof. induction pairs as [|p r IH]; simpl; [reflexivity | now rewrite <- IH]. Qed.

Lemma consumed_exchanges pairs : consumed (exchanges pairs) = map snd pairs.
Proof. induction pairs as [|p r IH]; simpl; [reflexivity | now rewrite <- IH]. Qed.

Section Dialogue.

Variables fr fs : pyval -> string.

Lemma print_request x w :
  print fr fs [PyStr "REQUEST_EVALUATION"; tolist x] w
  = (Ok tt, World (stdin w) (trace w ++ [Printed (request_line x)])).
Proof.
  unfold print, print_line, request_line. simpl map.
  now rewrite (numeric_str fr fs _ (tolist_numeric x)).
Qed.

Lemma print_final text w :
  print fr fs [PyStr "FINAL_RESULT"; PyStr text] w
  = (Ok tt, World (stdin w) (trace w ++ [Printed (final_line text)])).
Proof. reflexivity. Qed.

(** One call of [target] when a reply is waiting: the request is printed,
    the reply is read, and the call ends as [float] does on the reply. *)
Lemma target_answered x line rest t :
  target fr fs x (World (line :: rest) t)
  = (py_float line, World rest (t ++ [Printed (request_line x); Read line])).
Proof.
  unfold target, bind. rewrite print_request. simpl.
  rewrite <- List.app_assoc. reflexivity.
Qed.

(** One call of [target] at the end of standard input. *)
Lemma target_unanswered x t :
  target fr fs x (World [] t)
  = (Raise EOFError, World [] (t ++ [Printed (request_line x)])).
Proof. unfold target, bind. rewrite print_request. reflexivity. Qed.

(** Every run of the library against [target] is a sequence of answered
    requests followed by one of four endings; the replies are taken from
    standard input in order. *)
Lemma optimize_spec b : forall w, exists pairs e rest,
  optimize (target fr fs) b w
  = (ending_result e,
     World rest (trace w ++ exchanges pairs ++ ending_events e))
  /\ stdin w = (map snd pairs ++ consumed (ending_events e) ++ rest)%list
  /\ Forall (fun p => exists y, py_float (snd p) = Ok y) pairs
  /\ match e with
     | BadReply _ l => py_float l = Raise ValueError
     | NoReply _ => rest = []
     | _ => True
     end.
Proof.
  induction b as [x next IH|result|e]; intros [inp t].
  - cbn [optimize]. destruct inp as [|line inp].
    + exists [], (NoReply x), []. rewrite target_unanswered. simpl. auto.
    + rewrite target_answered.
      destruct (py_float line) as [y|e] eqn:Hy.
      * destruct (IH y (World inp (t ++ [Printed (request_line x); Read line])))
          as (pairs & e & rest & Hrun & Hin & Hok & He).
        exists ((x, line) :: pairs), e, rest.
        rewrite Hrun. simpl in *. rewrite <- List.app_assoc. simpl.
        repeat split; auto.
        -- now rewrite Hin.
        -- constructor; [now exists y | exact Hok].
      * apply py_float_raises in Hy as Hv. subst e.
        exists [], (BadReply x line), inp. simpl. auto.
  - exists [], (Returned result), inp. simpl. rewrite List.app_nil_r. auto.
  - exists [], (LibraryFailed e), inp. simpl. rewrite List.app_nil_r. auto.
Qed.

End Dialogue.

(* ================================================================== *)
(** ** The text [json.dumps] returns *)

Lemma escape_char_text c : ascii_text (escape_char c) = true.
Proof. destruct c as [[|] [|] [|] [|] [|] [|] [|] [|]]; reflexivity. Qed.

Lemma encode_basestring_text s : ascii_text (encode_basestring_ascii s) = true.
Proof.
  unfold encode_basestring_ascii, ascii_text. simpl.
  rewrite all_chars_app. simpl. rewrite andb_true_r.
  induction s as [|c s IH]; simpl; [reflexivity|].
  rewrite all_chars_app, IH, andb_true_r. apply escape_char_text.
Qed.

Lemma mapM_Forall2 {A B} (f : A -> res B) (P : A -> B -> Prop) l :
  Forall (fun x => forall y, f x = Ok y -> P x y) l ->
  forall ys, mapM f l = Ok ys -> Forall2 P l ys.
Proof.
  induction 1 as [|x r Hx _ IH]; simpl; intros ys H.
  - injection H as <-. constructor.
  - destruct (f x) as [y|] eqn:E; [|discriminate].
    destruct (mapM f r) as [zs|]; [|discriminate].
    injection H as <-. constructor; auto.
Qed.

Lemma Forall2_forallb {A B} (q : B -> bool) (l : list A) (ys : list B) :
  Forall2 (fun _ y => q y = true) l ys -> forallb q ys = true.
Proof. induction 1; simpl; [reflexivity | now apply andb_true_iff]. Qed.

Lemma wrap_text (o c : string) items :
  ascii_text o = true -> ascii_text c = true ->
  forallb ascii_text items = true ->
  ascii_text (o ++ String.concat ", " items ++ c) = true.
Proof.
  intros Ho Hc Hi. unfold ascii_text in *. rewrite !all_chars_app, Ho, Hc.
  rewrite all_chars_concat; auto.
Qed.

Lemma encode_with_text other :
  (forall o s, other o = Ok s -> ascii_text s = true) ->
  forall v s, encode_with other v = Ok s -> ascii_text s = true.
Proof.
  intros Hother.
  induction v as [|b|z|f|t|l IH|l IH|d IH|a|z|f|z|f|c] using pyval_induction;
    intros s H; simpl in H;
    try (injection H as <-);
    try (now apply (Hother _ _ H)).
  - reflexivity.
  - now destruct b.
  - apply str_of_Z_text.
  - apply encode_float_text.
  - apply encode_basestring_text.
  - destruct (mapM (encode_with other) l) as [items|] eqn:E; [|discriminate].
    injection H as <-.
    apply (mapM_Forall2 _ (fun _ y => ascii_text y = true)) in E; [|exact IH].
    apply Forall2_forallb in E.
    now apply (wrap_text "[" "]" items).
  - destruct (mapM (encode_with other) l) as [items|] eqn:E; [|discriminate].
    injection H as <-.
    apply (mapM_Forall2 _ (fun _ y => ascii_text y = true)) in E; [|exact IH].
    apply Forall2_forallb in E.
    now apply (wrap_text "[" "]" items).
  - match type of H with match ?m with _ => _ end = _ =>
      destruct m as [items|] eqn:E; [|discriminate] end.
    injection H as <-.
    apply (mapM_Forall2 _ (fun _ y => ascii_text y = true)) in E.
    + apply Forall2_forallb in E.
      now apply (wrap_text "{" "}" items).
    + eapply Forall_impl; [|exact IH]. intros [k v] Hv y Hy.
      cbn [fst snd] in *.
      destruct (encode_with other v) as [sv|]; [|discriminate].
      injection Hy as <-.
      change (ascii_text (encode_basestring_ascii k ++ ": " ++ sv) = true).
      unfold ascii_text. rewrite !all_chars_app.
      fold (ascii_text (encode_basestring_ascii k)).
      rewrite encode_basestring_text. simpl. now apply Hv.
  - apply encode_float_text.
Qed.

Lemma encode_text default fuel : forall v s,
  encode default fuel v = Ok s -> ascii_text s = true.
Proof.
  induction fuel as [|n IH]; intros v s; simpl; apply encode_with_text.
  - discriminate.
  - intros o t. destruct (default o); [apply IH | discriminate].
Qed.

Lemma json_dumps_text default v s :
  json_dumps default v = Ok s -> ascii_text s = true.
Proof. apply encode_text. Qed.

(* ================================================================== *)
(** ** Mappings *)

Lemma lookup_remove_same k d : lookup k (remove_key k d) = None.
Proof.
  induction d as [|[k' v] d IH]; simpl; [reflexivity|].
  destruct (String.eqb k k') eqn:E; simpl; [exact IH|].
  now rewrite E.
Qed.

Lemma lookup_remove_other k k' d :
  k' <> k -> lookup k' (remove_key k d) = lookup k' d.
Proof.
  intros Hne. induction d as [|[k0 v] d IH]; simpl; [reflexivity|].
  destruct (String.eqb_spec k k0) as [<-|Hk]; simpl.
  - destruct (String.eqb_spec k' k); [contradiction | exact IH].
  - now rewrite IH.
Qed.

Lemma in_remove_key k d kv :
  In kv (remove_key k d) <-> In kv d /\ fst kv <> k.
Proof.
  unfold remove_key. rewrite filter_In. apply and_iff_compat_l.
  destruct (String.eqb_spec k (fst kv)) as [->|Hne]; simpl; split;
    congruence.
Qed.

Lemma del_item_spec d k :
  del_item d k = match lookup k d with
                 | Some _ => Ok (remove_key k d)
                 | None => Raise (KeyError k)
                 end.
Proof. unfold del_item, has_key. now destruct (lookup k d). Qed.

(* ================================================================== *)
(** ** The script, step by step *)

Lemma load_logging : load_global "logging" = Raise (NameError "logging").
Proof. reflexivity. Qed.

Section Steps.

Variables fr fs : pyval -> string.
Variable BADS : pyval -> pyval -> pyval -> pyval -> pyval -> optimizer.

(** [jsonify] returns what [json.dumps] returns; when [json.dumps]
    raises, the handler raises on its first line. *)
Lemma jsonify_spec obj :
  jsonify fr fs obj =
  match json_dumps NumpyEncoder.default obj with
  | Ok s => Ok s
  | Raise _ => Raise (NameError "logging")
  end.
Proof.
  unfold jsonify, try_except.
  now destruct (json_dumps NumpyEncoder.default obj).
Qed.

Lemma jsonify_text obj s : jsonify fr fs obj = Ok s -> ascii_text s = true.
Proof.
  rewrite jsonify_spec.
  destruct (json_dumps NumpyEncoder.default obj) eqn:E; [|discriminate].
  intros [= <-]. now apply json_dumps_text in E.
Qed.

Lemma main_unfold argv w :
  main fr fs BADS argv w =
  match launch BADS argv with
  | Raise e => (Raise e, w)
  | Ok b =>
      match optimize (target fr fs) b w with
      | (Raise e, w1) => (Raise e, w1)
      | (Ok result, w1) =>
          match del_item result "fun" with
          | Raise e => (Raise e, w1)
          | Ok d =>
              match jsonify fr fs (PyDict d) with
              | Raise e => (Raise e, w1)
              | Ok text =>
                  (Ok tt,
                   World (stdin w1) (trace w1 ++ [Printed (final_line text)]))
              end
          end
      end
  end.
Proof.
  unfold main, launch, bind, lift, rbind.
  destruct (list_index argv 1) as [arg|]; [|reflexivity].
  destruct (json_loads arg) as [conf|]; [|reflexivity].
  destruct (subscript conf "x0") as [x0|]; [|reflexivity].
  destruct (subscript conf "lower_bounds") as [lb|]; [|reflexivity].
  destruct (subscript conf "upper_bounds") as [ub|]; [|reflexivity].
  destruct (subscript conf "plausible_lower_bounds") as [plb|]; [|reflexivity].
  destruct (subscript conf "plausible_upper_bounds") as [pub|]; [|reflexivity].
  destruct (optimize (target fr fs) (BADS x0 lb ub plb pub) w) as [[result|e] w1];
    [|reflexivity].
  destruct (del_item result "fun") as [d|]; [|reflexivity].
  destruct (jsonify fr fs (PyDict d)) as [text|]; reflexivity.
Qed.

(** The whole run: the dialogue, then the final line when everything
    after it succeeds. *)
Lemma run_spec argv inputs b :
  launch BADS argv = Ok b ->
  exists pairs e rest,
    optimize (target fr fs) b (World inputs [])
    = (ending_result e, World rest (exchanges pairs ++ ending_events e))
    /\ inputs = (map snd pairs ++ consumed (ending_events e) ++ rest)%list
    /\ Forall (fun p => exists y, py_float (snd p) = Ok y) pairs
    /\ match e with
       | BadReply _ l => py_float l = Raise ValueError
       | NoReply _ => rest = []
       | _ => True
       end
    /\ run fr fs BADS argv inputs =
       match e with
       | Returned result =>
           match lookup "fun" result with
           | None => (Raise (KeyError "fun"), World rest (exchanges pairs))
           | Some _ =>
               match json_dumps NumpyEncoder.default
                       (PyDict (remove_key "fun" result)) with
               | Raise _ =>
                   (Raise (NameError "logging"), World rest (exchanges pairs))
               | Ok text =>
                   (Ok tt,
                    World rest (exchanges pairs ++ [Printed (final_line text)]))
               end
           end
       | _ => (Raise match e with
                     | LibraryFailed x => x
                     | NoReply _ => EOFError
                     | _ => ValueError
                     end,
               World rest (exchanges pairs ++ ending_events e))
       end.
Proof.
  intros Hb.
  destruct (optimize_spec fr fs b (World inputs []))
    as (pairs & e & rest & Hrun & Hin & Hok & He).
  simpl in Hrun, Hin.
  exists pairs, e, rest. repeat split; auto.
  unfold run. rewrite main_unfold, Hb, Hrun.
  destruct e as [result|x|x l|x]; simpl; try reflexivity.
  rewrite List.app_nil_r, del_item_spec.
  destruct (lookup "fun" result); [|reflexivity].
  rewrite jsonify_spec.
  now destruct (json_dumps NumpyEncoder.default _).
Qed.

Lemma run_not_launched argv inputs e :
  launch BADS argv = Raise e ->
  run fr fs BADS argv inputs = (Raise e, World inputs []).
Proof. intros H. unfold run. now rewrite main_unfold, H. Qed.

End Steps.

(* ================================================================== *)
(** ** Shape of a trace *)






Lemma filter_final_exchanges pairs :
  filter is_final (printed (exchanges pairs)) = [].
Proof. induction pairs as [|p r IH]; simpl; [reflexivity | exact IH]. Qed.

Lemma filter_request_exchanges pairs :
  filter is_request (printed (exchanges pairs)) = printed (exchanges pairs).
Proof. induction pairs as [|p r IH]; simpl; [reflexivity | now rewrite IH]. Qed.

(* ================================================================== *)
(** ** What [NumpyEncoder] converts *)

Lemma mapM_ext {A B} (f g : A -> res B) l :
  Forall (fun x => f x = g x) l -> mapM f l = mapM g l.
Proof.
  induction 1 as [|x r Hx _ IH]; simpl; [reflexivity | now rewrite Hx, IH].
Qed.

Lemma mapM_map {A B C} (f : B -> res C) (g : A -> B) l :
  mapM f (map g l) = mapM (fun x => f (g x)) l.
Proof.
  induction l as [|x r IH]; simpl; [reflexivity | now rewrite IH].
Qed.

Lemma mapM_ok {A B} (f : A -> res B) l :
  Forall (fun x => exists y, f x = Ok y) l -> exists ys, mapM f l = Ok ys.
Proof.
  induction 1 as [|x r [y Hy] _ [ys IH]]; simpl; [now exists []|].
  rewrite Hy, IH. now exists (y :: ys).
Qed.

Lemma Forall_forallb_impl {A} (q : A -> bool) (P : A -> Prop) l :
  Forall (fun x => q x = true -> P x) l -> forallb q l = true -> Forall P l.
Proof.
  induction 1 as [|x r Hx _ IH]; simpl; intros H; constructor;
    apply andb_true_iff in H as [H1 H2]; auto.
Qed.

Lemma forallb_map {A B} (q : B -> bool) (g : A -> B) l :
  forallb q (map g l) = forallb (fun x => q (g x)) l.
Proof. induction l as [|x r IH]; simpl; [reflexivity | now rewrite IH]. Qed.

Lemma tolist_plain a : plain (tolist a) = true.
Proof. apply numeric_plain, tolist_numeric. Qed.

(** On plain values the encoder never asks its [default]. *)
Lemma encode_with_plain o1 o2 v :
  plain v = true -> encode_with o1 v = encode_with o2 v.
Proof.
  induction v as [|b|z|f|t|l IH|l IH|d IH|a|z|f|z|f|c] using pyval_induction;
    intros H; try reflexivity; try discriminate H; simpl in H |- *.
  - now rewrite (mapM_ext _ _ l (Forall_forallb_impl _ _ l IH H)).
  - erewrite mapM_ext; [reflexivity|].
    apply (Forall_forallb_impl (fun kv => plain (snd kv))); [|exact H].
    eapply Forall_impl; [|exact IH]. intros [k v] Hv Hp. simpl in *.
    now rewrite (Hv Hp).
Qed.

Lemma encode_with_plain_ok o v :
  plain v = true -> exists s, encode_with o v = Ok s.
Proof.
  induction v as [|b|z|f|t|l IH|l IH|d IH|a|z|f|z|f|c] using pyval_induction;
    intros H; try discriminate H; simpl in H |- *; eauto.
  - destruct (mapM_ok (encode_with o) l (Forall_forallb_impl _ _ l IH H))
      as [ys ->]. eauto.
  - match goal with |- exists s, match mapM ?f d with _ => _ end = _ =>
      destruct (mapM_ok f d) as [ys ->]; eauto end.
    apply (Forall_forallb_impl (fun kv => plain (snd kv))); [|exact H].
    eapply Forall_impl; [|exact IH]. intros [k v] Hv Hp. simpl in *.
    destruct (Hv Hp) as [s ->]. eauto.
Qed.

Lemma supported_to_plain v : supported v = true -> plain (to_plain v) = true.
Proof.
  induction v as [|b|z|f|t|l IH|l IH|d IH|a|z|f|z|f|c] using pyval_induction;
    intros H; try reflexivity; try discriminate H; simpl in H |- *.
  - rewrite forallb_map. rewrite forallb_forall. intros x Hx.
    rewrite Forall_forall in IH. rewrite forallb_forall in H. auto.
  - rewrite forallb_map. rewrite forallb_forall. intros x Hx.
    rewrite Forall_forall in IH. rewrite forallb_forall in H. auto.
  - rewrite forallb_map. rewrite forallb_forall. intros x Hx.
    rewrite Forall_forall in IH. rewrite forallb_forall in H.
    simpl. apply (IH x Hx), H, Hx.
  - apply tolist_plain.
Qed.

(** With fuel for one conversion, [NumpyEncoder] writes a supported value
    as the base encoder writes its plain form. *)
Lemma encode_supported n v :
  supported v = true ->
  encode NumpyEncoder.default (S n) v
  = encode_with (fun _ => Raise TypeError) (to_plain v).
Proof.
  cbn [encode].
  set (other := fun o' : pyval =>
                  match NumpyEncoder.default o' with
                  | Ok o'' => encode NumpyEncoder.default n o''
                  | Raise e => Raise e
                  end).
  induction v as [|b|z|f|t|l IH|l IH|d IH|a|z|f|z|f|c] using pyval_induction;
    intros H; try reflexivity; try discriminate H; simpl in H.
  - cbn [encode_with to_plain]. rewrite mapM_map.
    now rewrite (mapM_ext _ _ l (Forall_forallb_impl _ _ l IH H)).
  - cbn [encode_with to_plain]. rewrite mapM_map.
    now rewrite (mapM_ext _ _ l (Forall_forallb_impl _ _ l IH H)).
  - cbn [encode_with to_plain]. rewrite mapM_map.
    erewrite mapM_ext; [reflexivity|].
    apply (Forall_forallb_impl (fun kv => supported (snd kv))); [|exact H].
    eapply Forall_impl; [|exact IH]. intros [k v] Hv Hp. simpl in *.
    now rewrite (Hv Hp).
  - cbn [encode_with to_plain]. unfold other. cbn [NumpyEncoder.default].
    destruct n; cbn [encode]; apply encode_with_plain, tolist_plain.
  - cbn [encode_with to_plain]. unfold other. cbn [NumpyEncoder.default].
    now destruct n.
Qed.

Lemma json_dumps_supported v :
  supported v = true ->
  json_dumps NumpyEncoder.default v = json_dumps JSONEncoder_default (to_plain v)
  /\ exists text, json_dumps NumpyEncoder.default v = Ok text.
Proof.
  intros H. unfold json_dumps, recursion_limit.
  rewrite (encode_supported 999 v H).
  split.
  - apply encode_with_plain, supported_to_plain, H.
  - apply encode_with_plain_ok, supported_to_plain, H.
Qed.

(* ================================================================== *)
(** ** Reading back what [json.dumps] wrote *)

Lemma append_assoc (a b c : string) : (a ++ b) ++ c = a ++ b ++ c.
Proof. induction a as [|x a IH]; simpl; [reflexivity | now rewrite IH]. Qed.

Lemma append_nil_r (a : string) : a ++ "" = a.
Proof. induction a as [|x a IH]; simpl; [reflexivity | now rewrite IH]. Qed.

Lemma length_append (a b : string) :
  String.length (a ++ b) = String.length a + String.length b.
Proof. induction a as [|x a IH]; simpl; [reflexivity | now rewrite IH]. Qed.

(** *** Scanners and what follows the token *)

Lemma span_app p t a b rest :
  span p t = (a, b) ->
  match rest with EmptyString => True | String c _ => p c = false end ->
  span p (t ++ rest) = (a, b ++ rest).
Proof.
  revert a b. induction t as [|c t IH]; intros a b E Hr.
  - injection E as <- <-. simpl. destruct rest as [|c r]; [reflexivity|].
    simpl. now rewrite Hr.
  - simpl in *. destruct (p c).
    + destruct (span p t) as [a' b'] eqn:E'. injection E as <- <-.
      now rewrite (IH a' b' eq_refl Hr).
    + now injection E as <- <-.
Qed.

Lemma span_all p s : all_chars p s = true -> span p s = (s, "").
Proof.
  induction s as [|c s IH]; simpl; [reflexivity|].
  intros H. apply andb_true_iff in H as [Hc Hs]. now rewrite Hc, IH.
Qed.

Lemma delimited_digit rest :
  delimited rest = true ->
  match rest with EmptyString => True | String c _ => is_digit c = false end.
Proof.
  destruct rest as [|c r]; [trivial|]. simpl.
  destruct (is_digit c); [discriminate | reflexivity].
Qed.

Lemma delimited_head rest :
  delimited rest = true ->
  match rest with
  | EmptyString => True
  | String c _ =>
      is_digit c = false /\ Ascii.eqb c "." = false
      /\ Ascii.eqb c "e" = false /\ Ascii.eqb c "E" = false
      /\ Ascii.eqb c "+" = false /\ Ascii.eqb c "-" = false
  end.
Proof.
  destruct rest as [|c r]; [trivial|]. simpl.
  destruct (is_digit c), (Ascii.eqb c "."), (Ascii.eqb c "e"), (Ascii.eqb c "E"),
    (Ascii.eqb c "+"), (Ascii.eqb c "-");
    simpl; intros H; try discriminate; auto 7.
Qed.

Lemma span_digits_app t a b rest :
  span is_digit t = (a, b) -> delimited rest = true ->
  span is_digit (t ++ rest) = (a, b ++ rest).
Proof. intros E H. apply span_app; [exact E | now apply delimited_digit]. Qed.

Lemma scan_integer_app t i r rest :
  scan_integer t = Some (i, r) -> delimited rest = true ->
  scan_integer (t ++ rest) = Some (i, r ++ rest).
Proof.
  intros E Hd. unfold scan_integer in *.
  destruct t as [|c t]; [discriminate|]. cbn [append].
  destruct (Ascii.eqb c "-").
  - destruct t as [|c' t]; [discriminate|]. cbn [append].
    destruct (Ascii.eqb c' "0"); [now injection E as <- <-|].
    destruct (is_digit c'); [|discriminate].
    destruct (span is_digit (String c' t)) as [ds r0] eqn:Es.
    injection E as <- <-.
    change (String c' (t ++ rest)) with (String c' t ++ rest).
    now rewrite (span_digits_app _ _ _ rest Es Hd).
  - destruct (Ascii.eqb c "0"); [now injection E as <- <-|].
    destruct (is_digit c); [|discriminate].
    destruct (span is_digit (String c t)) as [ds r0] eqn:Es.
    injection E as <- <-.
    change (String c (t ++ rest)) with (String c t ++ rest).
    now rewrite (span_digits_app _ _ _ rest Es Hd).
Qed.

Lemma scan_frac_app t f r rest :
  scan_frac t = (f, r) -> delimited rest = true ->
  scan_frac (t ++ rest) = (f, r ++ rest).
Proof.
  intros E Hd. unfold scan_frac in *.
  destruct t as [|c t].
  - injection E as <- <-. simpl.
    destruct rest as [|c r]; [reflexivity|].
    apply delimited_head in Hd as (_ & -> & _). reflexivity.
  - cbn [append]. destruct (Ascii.eqb c ".").
    + destruct (span is_digit t) as [ds r0] eqn:Es.
      rewrite (span_digits_app _ _ _ rest Es Hd).
      destruct ds; now injection E as <- <-.
    + now injection E as <- <-.
Qed.

Lemma scan_exp_app t x r rest :
  scan_exp t = (x, r) -> delimited rest = true ->
  scan_exp (t ++ rest) = (x, r ++ rest).
Proof.
  intros E Hd. unfold scan_exp in *.
  destruct t as [|c t].
  - injection E as <- <-. simpl.
    destruct rest as [|c r]; [reflexivity|].
    apply delimited_head in Hd as (_ & _ & -> & -> & _). reflexivity.
  - cbn [append]. destruct (Ascii.eqb c "e" || Ascii.eqb c "E");
      [|now injection E as <- <-].
    assert (Hempty : span is_digit rest = (EmptyString, rest)).
    { destruct rest as [|c0 r0]; [reflexivity|]. simpl.
      apply delimited_head in Hd as (-> & _). reflexivity. }
    destruct t as [|c1 t].
    + cbn [append]. simpl in E.
      destruct rest as [|c0 r0]; [now injection E as <- <-|].
      pose proof (delimited_head _ Hd) as (_ & _ & _ & _ & -> & ->).
      rewrite Hempty. now injection E as <- <-.
    + cbn [append].
      destruct (Ascii.eqb c1 "-").
      * destruct (span is_digit t) as [ds r0] eqn:Es.
        rewrite (span_digits_app _ _ _ rest Es Hd).
        destruct ds; now injection E as <- <-.
      * destruct (Ascii.eqb c1 "+").
        -- destruct (span is_digit t) as [ds r0] eqn:Es.
           rewrite (span_digits_app _ _ _ rest Es Hd).
           destruct ds; now injection E as <- <-.
        -- destruct (span is_digit (String c1 t)) as [ds r0] eqn:Es.
           change (String c1 (t ++ rest)) with (String c1 t ++ rest).
           rewrite (span_digits_app _ _ _ rest Es Hd).
           destruct ds; now injection E as <- <-.
Qed.

Lemma scan_number_app t v r rest :
  scan_number t = Some (v, r) -> delimited rest = true ->
  scan_number (t ++ rest) = Some (v, r ++ rest).
Proof.
  intros E Hd. unfold scan_number in *.
  destruct (scan_integer t) as [[i r1]|] eqn:E1; [|discriminate].
  rewrite (scan_integer_app _ _ _ rest E1 Hd).
  destruct (scan_frac r1) as [f r2] eqn:E2.
  rewrite (scan_frac_app _ _ _ rest E2 Hd).
  destruct (scan_exp r2) as [x r3] eqn:E3.
  rewrite (scan_exp_app _ _ _ rest E3 Hd).
  destruct f, x; now injection E as <- <-.
Qed.

(** *** Strings *)

Lemma scanstring_escape_char c t :
  scanstring (escape_char c ++ t) = cons_char c (scanstring t).
Proof. destruct c as [[|] [|] [|] [|] [|] [|] [|] [|]]; reflexivity. Qed.

Lemma scanstring_escaped k rest :
  scanstring (escape_chars k ++ String dquote rest) = Ok (k, rest).
Proof.
  induction k as [|c k IH]; [reflexivity|].
  cbn [escape_chars]. rewrite append_assoc, scanstring_escape_char, IH.
  reflexivity.
Qed.

Lemma scan_once_string n k rest :
  scan_once (S n) (encode_basestring_ascii k ++ rest) = Ok (PyStr k, rest).
Proof.
  unfold encode_basestring_ascii. cbn [append scan_once].
  rewrite append_assoc. cbn [append].
  change (Ascii.eqb dquote dquote) with true. cbv iota.
  now rewrite scanstring_escaped.
Qed.

(** *** Integers *)

Lemma to_uint_head p :
  exists c s, NilEmpty.string_of_uint (Pos.to_uint p) = String c s
              /\ is_digit c = true /\ Ascii.eqb c "0" = false
              /\ Ascii.eqb c "-" = false.
Proof.
  pose proof (DecimalPos.Unsigned.to_uint_nonzero p) as Hnz.
  pose proof (DecimalPos.Unsigned.to_uint_nonnil p) as Hnn.
  pose proof (DecimalN.Unsigned.to_of (Pos.to_uint p)) as Hn.
  change (N.of_uint (Pos.to_uint p)) with (Pos.of_uint (Pos.to_uint p)) in Hn.
  rewrite DecimalPos.Unsigned.of_to in Hn. simpl in Hn.
  assert (Hh : forall d', Pos.to_uint p <> D0 d').
  { intros d' E. rewrite Hn in E. unfold unorm in E.
    destruct (nzhead (Pos.to_uint p)) eqn:Eh;
      try (now apply (DecimalFacts.nzhead_nonzero (Pos.to_uint p) d');
           rewrite Eh).
    apply Hnz. rewrite Hn. unfold unorm. now rewrite Eh. }
  destruct (Pos.to_uint p) as [|d|d|d|d|d|d|d|d|d|d]; simpl;
    try contradiction; try (now exfalso; apply (Hh d)); eauto 8.
Qed.

Lemma uint_digits d : all_chars is_digit (NilEmpty.string_of_uint d) = true.
Proof. induction d; simpl; auto. Qed.

Lemma N_of_digits_uint d : N_of_digits (NilEmpty.string_of_uint d) = N.of_uint d.
Proof. unfold N_of_digits. now rewrite NilEmpty.usu. Qed.

Lemma scan_digits_pos p :
  scan_integer (NilEmpty.string_of_uint (Pos.to_uint p))
  = Some (NilEmpty.string_of_uint (Pos.to_uint p), "")
  /\ scan_integer (String "-" (NilEmpty.string_of_uint (Pos.to_uint p)))
     = Some (String "-" (NilEmpty.string_of_uint (Pos.to_uint p)), "").
Proof.
  destruct (to_uint_head p) as (c & s & E & Hd & H0 & Hm).
  pose proof (uint_digits (Pos.to_uint p)) as Hall.
  unfold scan_integer. rewrite E in *. cbn [append].
  change (Ascii.eqb "-" "-") with true. cbv iota.
  rewrite Hm, H0, Hd, (span_all _ _ Hall). auto.
Qed.

Lemma py_int_pos p :
  py_int (NilEmpty.string_of_uint (Pos.to_uint p)) = Zpos p
  /\ py_int (String "-" (NilEmpty.string_of_uint (Pos.to_uint p))) = Zneg p.
Proof.
  assert (Hv : N_of_digits (NilEmpty.string_of_uint (Pos.to_uint p)) = Npos p).
  { rewrite N_of_digits_uint. apply DecimalPos.Unsigned.of_to. }
  destruct (to_uint_head p) as (c & s & E & Hd & H0 & Hm).
  rewrite E in Hv |- *.
  unfold py_int. change (Ascii.eqb "-" "-") with true. cbv iota.
  rewrite Hm, Hv. auto.
Qed.

Lemma str_of_Z_pos p : str_of_Z (Zpos p) = NilEmpty.string_of_uint (Pos.to_uint p).
Proof.
  unfold str_of_Z. simpl. unfold NilZero.string_of_uint.
  pose proof (DecimalPos.Unsigned.to_uint_nonnil p).
  now destruct (Pos.to_uint p).
Qed.

Lemma str_of_Z_neg p :
  str_of_Z (Zneg p) = String "-" (NilEmpty.string_of_uint (Pos.to_uint p)).
Proof.
  unfold str_of_Z. simpl. unfold NilZero.string_of_uint.
  pose proof (DecimalPos.Unsigned.to_uint_nonnil p).
  now destruct (Pos.to_uint p).
Qed.

(** An integer reads back as itself. *)
Lemma scan_number_int z : scan_number (str_of_Z z) = Some (Ok (PyInt z), "").
Proof.
  destruct z as [|p|p].
  - reflexivity.
  - rewrite str_of_Z_pos. unfold scan_number.
    rewrite (proj1 (scan_digits_pos p)). simpl.
    now rewrite (proj1 (py_int_pos p)).
  - rewrite str_of_Z_neg. unfold scan_number.
    rewrite (proj2 (scan_digits_pos p)). simpl scan_frac. simpl scan_exp.
    cbv iota. now rewrite (proj2 (py_int_pos p)).
Qed.

Lemma str_of_Z_head z :
  exists c s, str_of_Z z = String c s
              /\ (Ascii.eqb c "-" = true \/ is_digit c = true).
Proof.
  destruct z as [|p|p].
  - exists "0"%char, "". auto.
  - rewrite str_of_Z_pos.
    destruct (to_uint_head p) as (c & s & E & Hd & _). eauto.
  - rewrite str_of_Z_neg. eauto.
Qed.

(** *** Where a value starts *)

Lemma number_start c :
  Ascii.eqb c "-" = true \/ is_digit c = true -> value_start c = true.
Proof.
  destruct c as [[|] [|] [|] [|] [|] [|] [|] [|]]; intros [H|H];
    try discriminate H; reflexivity.
Qed.

Lemma scan_once_number n c s :
  Ascii.eqb c "-" = true \/ is_digit c = true ->
  scan_once (S n) (String c s)
  = match scan_number (String c s) with
    | Some (Ok v, rest) => Ok (v, rest)
    | Some (Raise e, _) => Raise e
    | None =>
        match scan_nonfinite (String c s) with
        | Some vr => Ok vr
        | None => Raise JSONDecodeError
        end
    end.
Proof.
  destruct c as [[|] [|] [|] [|] [|] [|] [|] [|]]; intros [H|H];
    try discriminate H; reflexivity.
Qed.

Lemma scan_integer_head t i r :
  scan_integer t = Some (i, r) ->
  exists c s, t = String c s /\ (Ascii.eqb c "-" = true \/ is_digit c = true).
Proof.
  unfold scan_integer. destruct t as [|c t]; [discriminate|].
  intros H. exists c, t. split; [reflexivity|].
  destruct (Ascii.eqb c "-") eqn:Em; [now left|]. right.
  destruct (Ascii.eqb_spec c "0") as [->|]; [reflexivity|].
  now destruct (is_digit c).
Qed.

Lemma scan_number_head t v r :
  scan_number t = Some (v, r) ->
  exists c s, t = String c s /\ (Ascii.eqb c "-" = true \/ is_digit c = true).
Proof.
  unfold scan_number.
  destruct (scan_integer t) as [[i r1]|] eqn:E; [|discriminate].
  intros _. now apply scan_integer_head in E.
Qed.

Lemma skip_ws_value c s :
  value_start c = true -> skip_ws (String c s) = String c s.
Proof.
  unfold value_start, skip_ws. simpl.
  now destruct (is_json_ws c).
Qed.

Lemma value_start_not_bracket c :
  value_start c = true -> Ascii.eqb c "]" = false.
Proof.
  unfold value_start. destruct (is_json_ws c); [discriminate|].
  now destruct (Ascii.eqb c "]").
Qed.

(** *** Numbers *)

Lemma float_eqb_eq a b : float_eqb a b = true -> a = b.
Proof.
  destruct a as [s|s| |s m e], b as [t|t| |t n f]; simpl;
    try discriminate; try reflexivity.
  - intros H. apply Bool.eqb_prop in H. now subst.
  - intros H. apply Bool.eqb_prop in H. now subst.
  - intros H. apply andb_true_iff in H as [H He].
    apply andb_true_iff in H as [Hs Hm].
    apply Bool.eqb_prop in Hs. apply Pos.eqb_eq in Hm. apply Z.eqb_eq in He.
    now subst.
Qed.

Lemma scan_once_int n z rest :
  delimited rest = true ->
  scan_once (S n) (str_of_Z z ++ rest) = Ok (PyInt z, rest).
Proof.
  intros Hd.
  pose proof (scan_number_app _ _ _ rest (scan_number_int z) Hd) as E.
  destruct (str_of_Z_head z) as (c & s & Es & Hc).
  rewrite Es in *. cbn [append] in *.
  now rewrite (scan_once_number n c _ Hc), E.
Qed.

Lemma scan_once_float n f rest :
  reads_back f = true -> delimited rest = true ->
  scan_once (S n) (encode_float f ++ rest) = Ok (PyFloat f, rest).
Proof.
  intros Hrb Hd.
  assert (Hfin : (exists g, scan_number (float_repr f) = Some (Ok (PyFloat g), "")
                            /\ float_eqb g f = true)
                 -> scan_once (S n) (float_repr f ++ rest) = Ok (PyFloat f, rest)).
  { intros (g & E & Hg). apply float_eqb_eq in Hg. subst g.
    pose proof (scan_number_app _ _ _ rest E Hd) as E'.
    destruct (scan_number_head _ _ _ E) as (c & s & Es & Hc).
    rewrite Es in *. cbn [append] in *.
    now rewrite (scan_once_number n c _ Hc), E'. }
  assert (Hchk : forall h,
             match scan_number (float_repr h) with
             | Some (Ok (PyFloat g), EmptyString) => float_eqb g h
             | _ => false
             end = true ->
             exists g, scan_number (float_repr h) = Some (Ok (PyFloat g), "")
                       /\ float_eqb g h = true).
  { intros h H.
    destruct (scan_number (float_repr h)) as [[[v|] r]|]; try discriminate.
    destruct v; try discriminate. destruct r; try discriminate. eauto. }
  destruct f as [s|s| |s m e].
  - apply Hfin, Hchk, Hrb.
  - now destruct s.
  - reflexivity.
  - apply Hfin, Hchk, Hrb.
Qed.

(** *** Mappings with distinct keys *)

Lemma set_item_fresh k v d :
  existsb (String.eqb k) (map fst d) = false ->
  set_item k v d = (d ++ [(k, v)])%list.
Proof.
  induction d as [|[k' v'] d IH]; simpl; [reflexivity|].
  intros H. apply orb_false_iff in H as [H1 H2].
  now rewrite H1, IH.
Qed.

Lemma existsb_app_false {A} (q : A -> bool) l1 l2 :
  existsb q (l1 ++ l2) = false <-> existsb q l1 = false /\ existsb q l2 = false.
Proof. rewrite existsb_app. apply orb_false_iff. Qed.

Lemma dict_of_pairs_distinct_gen d : forall acc,
  distinct_keys (map fst d) = true ->
  forallb (fun k => negb (existsb (String.eqb k) (map fst acc))) (map fst d)
  = true ->
  fold_left (fun a kv => set_item (fst kv) (snd kv) a) d acc = (acc ++ d)%list.
Proof.
  induction d as [|[k v] d IH]; intros acc Hd Hacc; simpl in *.
  - now rewrite List.app_nil_r.
  - apply andb_true_iff in Hd as [Hk Hd].
    apply andb_true_iff in Hacc as [Hka Hacc].
    apply negb_true_iff in Hk, Hka.
    rewrite (set_item_fresh k v acc Hka), IH; auto.
    + now rewrite <- List.app_assoc.
    + rewrite forallb_forall in *. intros k' Hin.
      specialize (Hacc k' Hin). apply negb_true_iff in Hacc.
      apply negb_true_iff. rewrite map_app. apply existsb_app_false.
      split; [exact Hacc|]. simpl. rewrite orb_false_r.
      destruct (String.eqb_spec k' k) as [->|]; [|reflexivity].
      exfalso. assert (Hex : existsb (String.eqb k) (map fst d) = true).
      { apply existsb_exists. exists k. split; [exact Hin|].
        apply String.eqb_refl. }
      congruence.
Qed.

Lemma dict_of_pairs_distinct d :
  distinct_keys (map fst d) = true -> dict_of_pairs d = d.
Proof.
  intros H. unfold dict_of_pairs.
  rewrite dict_of_pairs_distinct_gen; auto.
  apply forallb_forall. reflexivity.
Qed.

(** *** Values *)

Section Decode.

Variable o : pyval -> res string.

Lemma encoded_head v s :
  portable v = true -> encode_with o v = Ok s ->
  exists c s', s = String c s' /\ value_start c = true.
Proof.
  destruct v; intros Hp H; try discriminate Hp; cbn [encode_with] in H.
  - injection H as <-. now exists "n"%char, "ull".
  - injection H as <-. destruct b; [now exists "t"%char, "rue"
                                   | now exists "f"%char, "alse"].
  - injection H as <-. destruct (str_of_Z_head z) as (c & s & E & Hc).
    exists c, s. split; [exact E | now apply number_start].
  - injection H as <-. destruct f as [sg|sg| |sg m e].
    + destruct sg; [now exists "-"%char, "0.0" | now exists "0"%char, ".0"].
    + destruct sg; [now exists "-"%char, "Infinity"
                   | now exists "I"%char, "nfinity"].
    + now exists "N"%char, "aN".
    + cbn [portable reads_back] in Hp. cbn [encode_float].
      destruct (scan_number (float_repr (S754_finite sg m e)))
        as [[v r]|] eqn:E; [|discriminate].
      destruct (scan_number_head _ _ _ E) as (c & s & Es & Hc).
      exists c, s. split; [exact Es | now apply number_start].
  - injection H as <-. unfold encode_basestring_ascii. eauto.
  - destruct (mapM (encode_with o) l) as [items|]; [|discriminate].
    injection H as <-. now exists "["%char, (String.concat ", " items ++ "]").
  - match type of H with match ?m with _ => _ end = _ =>
      destruct m as [items|]; [|discriminate] end.
    injection H as <-. now exists "{"%char, (String.concat ", " items ++ "}").
Qed.

Lemma skip_ws_encoded v s rest :
  portable v = true -> encode_with o v = Ok s ->
  skip_ws (s ++ rest) = s ++ rest.
Proof.
  intros Hp H. destruct (encoded_head v s Hp H) as (c & s' & -> & Hc).
  cbn [append]. now apply skip_ws_value.
Qed.

(** One step of each of the three scanners. *)
Lemma array_items_last n v s r :
  scan_once n s = Ok (v, String "]" r) -> array_items (S n) s = Ok ([v], r).
Proof. intros H. cbn [array_items]. now rewrite H. Qed.

Lemma array_items_more n v s r :
  scan_once n s = Ok (v, String "," (String " " r)) ->
  array_items (S n) s
  = match array_items n (skip_ws r) with
    | Ok (vs, rest) => Ok (v :: vs, rest)
    | Raise e => Raise e
    end.
Proof. intros H. cbn [array_items]. now rewrite H. Qed.

Lemma object_items_last n k s v rest :
  skip_ws s = s -> scan_once n s = Ok (v, String "}" rest) ->
  object_items (S n) (escape_chars k ++ String dquote (String ":" (String " " s)))
  = Ok ([(k, v)], rest).
Proof.
  intros Hs H. cbn [object_items]. rewrite scanstring_escaped.
  change (skip_ws (String ":" (String " " s))) with (String ":" (String " " s)).
  change (Ascii.eqb ":" ":") with true. cbv iota.
  change (skip_ws (String " " s)) with (skip_ws s).
  now rewrite Hs, H.
Qed.

Lemma object_items_more n k s v r :
  skip_ws s = s ->
  scan_once n s = Ok (v, String "," (String " " (String dquote r))) ->
  object_items (S n) (escape_chars k ++ String dquote (String ":" (String " " s)))
  = match object_items n r with
    | Ok (kvs, rest) => Ok ((k, v) :: kvs, rest)
    | Raise e => Raise e
    end.
Proof.
  intros Hs H. cbn [object_items]. rewrite scanstring_escaped.
  change (skip_ws (String ":" (String " " s))) with (String ":" (String " " s)).
  change (Ascii.eqb ":" ":") with true. cbv iota.
  change (skip_ws (String " " s)) with (skip_ws s).
  now rewrite Hs, H.
Qed.

Lemma scan_once_array n c r :
  value_start c = true ->
  scan_once (S n) (String "[" (String c r))
  = match array_items n (String c r) with
    | Ok (items, rest) => Ok (PyList items, rest)
    | Raise e => Raise e
    end.
Proof.
  intros Hc. cbn [scan_once].
  change (Ascii.eqb "[" dquote) with false.
  change (Ascii.eqb "[" "{") with false.
  change (Ascii.eqb "[" "[") with true. cbv iota.
  now rewrite (skip_ws_value c r Hc), (value_start_not_bracket c Hc).
Qed.

Lemma scan_once_object n r :
  scan_once (S n) (String "{" (String dquote r))
  = match object_items n r with
    | Ok (pairs, rest) => Ok (PyDict (dict_of_pairs pairs), rest)
    | Raise e => Raise e
    end.
Proof. reflexivity. Qed.

Lemma concat_head sep s more c t :
  s = String c t ->
  exists t', String.concat sep (s :: more) = String c t'.
Proof.
  intros ->. destruct more; cbn [String.concat append]; eauto.
Qed.

(** The items of an array, from the first one to the closing bracket. *)
Lemma array_items_encoded l :
  Forall (fun v => portable v = true /\ reads o v) l ->
  l <> [] ->
  forall items, mapM (encode_with o) l = Ok items ->
  forall n rest,
    String.length (String.concat ", " items) < n ->
    array_items n (String.concat ", " items ++ "]" ++ rest) = Ok (l, rest).
Proof.
  induction 1 as [|v l [Hp Hv] Hl IH]; [congruence|].
  intros _ items Hitems n rest Hn. simpl in Hitems.
  destruct (encode_with o v) as [s|] eqn:Es; [|discriminate].
  destruct (mapM (encode_with o) l) as [more|] eqn:Em; [|discriminate].
  injection Hitems as <-.
  destruct n as [|m]; [lia|].
  destruct l as [|v2 l].
  - injection Em as <-. cbn [String.concat] in *.
    apply array_items_last. apply (Hv s Es); [reflexivity | lia].
  - assert (Hne : v2 :: l <> []) by discriminate.
    specialize (IH Hne).
    destruct more as [|s2 more2];
      [simpl in Em; destruct (encode_with o v2); [|discriminate];
       destruct (mapM (encode_with o) l); discriminate|].
    specialize (IH (s2 :: more2) eq_refl).
    assert (Es2 : encode_with o v2 = Ok s2).
    { simpl in Em. destruct (encode_with o v2); [|discriminate].
      destruct (mapM (encode_with o) l); [|discriminate]. congruence. }
    inversion Hl as [|? ? [Hp2 _] _]; subst.
    destruct (encoded_head v2 s2 Hp2 Es2) as (c & t & Ehead & Hc).
    destruct (concat_head ", " s2 more2 c t Ehead) as (t' & Etail).
    change (String.concat ", " (s :: s2 :: more2))
      with (s ++ ", " ++ String.concat ", " (s2 :: more2)) in *.
    rewrite !length_append in Hn. cbn [String.length] in Hn.
    rewrite !append_assoc. cbn [append].
    rewrite (array_items_more m v _
               (String.concat ", " (s2 :: more2) ++ String "]" rest)).
    + rewrite Etail at 1. cbn [append]. rewrite (skip_ws_value c _ Hc).
      change (String c (t' ++ String "]" rest))
        with (String c t' ++ "]" ++ rest).
      rewrite <- Etail, IH; [reflexivity | lia].
    + apply (Hv s Es); [reflexivity | lia].
Qed.

(** The members of an object, from after the opening quote of the first
    key to the closing brace. *)
Lemma object_items_encoded d :
  Forall (fun kv => portable (snd kv) = true /\ reads o (snd kv)) d ->
  d <> [] ->
  forall items,
    mapM (fun kv =>
            match encode_with o (snd kv) with
            | Ok s => Ok (encode_basestring_ascii (fst kv) ++ ": " ++ s)
            | Raise e => Raise e
            end) d = Ok items ->
  exists body,
    String.concat ", " items = String dquote body
    /\ forall n rest,
         String.length body < n ->
         object_items n (body ++ "}" ++ rest) = Ok (d, rest).
Proof.
  induction 1 as [|[k v] d [Hp Hv] Hd IH]; [congruence|].
  intros _ items Hitems. cbn [fst snd] in *. cbn [mapM] in Hitems.
  cbn [fst snd] in Hitems.
  destruct (encode_with o v) as [s|] eqn:Es; [|discriminate].
  match type of Hitems with match ?m with _ => _ end = _ =>
    destruct m as [more|] eqn:Em; [|discriminate] end.
  injection Hitems as <-.
  pose proof (skip_ws_encoded v s) as Hskip.
  destruct d as [|kv2 d].
  - injection Em as <-. cbn [String.concat].
    exists (escape_chars k ++ String dquote (String ":" (String " " s))).
    split.
    + unfold encode_basestring_ascii. cbn [append].
      now rewrite !append_assoc.
    + intros n rest Hn. rewrite !length_append in Hn.
      cbn [String.length] in Hn.
      destruct n as [|m]; [lia|].
      rewrite !append_assoc. cbn [append].
      apply object_items_last; [now apply Hskip|].
      apply (Hv s Es); [reflexivity | lia].
  - assert (Hne : kv2 :: d <> []) by discriminate.
    destruct (IH Hne more eq_refl) as (body2 & Ebody & Hbody).
    destruct more as [|i2 more2]; [discriminate Ebody|].
    change (String.concat ", " (?a :: i2 :: more2))
      with (a ++ ", " ++ String.concat ", " (i2 :: more2)).
    rewrite Ebody.
    exists (escape_chars k
            ++ String dquote
                 (String ":" (String " "
                    (s ++ String "," (String " " (String dquote body2)))))).
    split.
    + unfold encode_basestring_ascii. cbn [append].
      rewrite !append_assoc. cbn [append]. now rewrite ?append_assoc.
    + intros n rest Hn. rewrite !length_append in Hn.
      cbn [String.length] in Hn. rewrite !length_append in Hn.
      cbn [String.length] in Hn.
      destruct n as [|m]; [lia|].
      rewrite !append_assoc. cbn [append]. rewrite !append_assoc.
      cbn [append].
      rewrite (object_items_more m k _ v (body2 ++ String "}" rest)).
      * change (body2 ++ String "}" rest) with (body2 ++ "}" ++ rest).
        rewrite Hbody; [reflexivity | lia].
      * now apply Hskip.
      * apply (Hv s Es); [reflexivity | lia].
Qed.

Lemma Forall_and_forallb {A} (q : A -> bool) (P : A -> Prop) l :
  Forall (fun x => q x = true -> P x) l -> forallb q l = true ->
  Forall (fun x => q x = true /\ P x) l.
Proof.
  induction 1 as [|x r Hx _ IH]; simpl; intros H; constructor;
    apply andb_true_iff in H as [H1 H2]; auto.
Qed.

(** Every portable value is read back from its text. *)
Lemma scan_encoded v : portable v = true -> reads o v.
Proof.
  induction v as [|b|z|f|t|l IH|l IH|d IH|a|z|f|z|f|c] using pyval_induction;
    intros Hp; try discriminate Hp; intros s Hs n rest Hrest Hn;
    cbn [encode_with] in Hs.
  - injection Hs as <-. destruct n; [simpl in Hn; lia | reflexivity].
  - injection Hs as <-. destruct n; [destruct b; simpl in Hn; lia|].
    now destruct b.
  - injection Hs as <-. destruct (str_of_Z_head z) as (c & s' & E & _).
    destruct n; [rewrite E in Hn; simpl in Hn; lia|].
    now apply scan_once_int.
  - injection Hs as <-.
    destruct (encoded_head (PyFloat f) (encode_float f) Hp eq_refl)
      as (c & s' & E & _).
    destruct n; [rewrite E in Hn; simpl in Hn; lia|].
    now apply scan_once_float.
  - injection Hs as <-.
    destruct n; [simpl in Hn; lia|]. apply scan_once_string.
  - cbn [portable] in Hp.
    destruct (mapM (encode_with o) l) as [items|] eqn:Em; [|discriminate].
    injection Hs as <-.
    repeat first [rewrite length_append in Hn
                 | progress (cbn [String.length] in Hn)].
    destruct n as [|m]; [lia|].
    destruct l as [|v l].
    + injection Em as <-. reflexivity.
    + pose proof (Forall_and_forallb _ _ _ IH Hp) as Hall.
      assert (Hne : v :: l <> []) by discriminate.
      pose proof (array_items_encoded (v :: l) Hall Hne items Em m rest) as Hitems.
      destruct items as [|s1 more];
        [simpl in Em; destruct (encode_with o v); [|discriminate];
         destruct (mapM (encode_with o) l); discriminate|].
      assert (Es1 : encode_with o v = Ok s1).
      { simpl in Em. destruct (encode_with o v); [|discriminate].
        destruct (mapM (encode_with o) l); [|discriminate]. congruence. }
      inversion Hall as [|? ? [Hpv _] _]; subst.
      destruct (encoded_head v s1 Hpv Es1) as (c & t & Ehead & Hc).
      destruct (concat_head ", " s1 more c t Ehead) as (t' & Etail).
      cbn [append]. rewrite ?append_assoc. cbn [append].
      rewrite Etail in Hitems |- *. cbn [append] in Hitems |- *.
      rewrite (scan_once_array m c _ Hc), Hitems; [reflexivity|].
      rewrite <- Etail. lia.
  - cbn [portable] in Hp. apply andb_true_iff in Hp as [Hkeys Hp].
    match type of Hs with match ?m with _ => _ end = _ =>
      destruct m as [items|] eqn:Em; [|discriminate] end.
    injection Hs as <-.
    repeat first [rewrite length_append in Hn
                 | progress (cbn [String.length] in Hn)].
    destruct n as [|m]; [lia|].
    destruct d as [|kv d].
    + injection Em as <-. reflexivity.
    + pose proof (Forall_and_forallb (fun kv => portable (snd kv))
                    (fun kv => reads o (snd kv)) _ IH Hp) as Hall.
      assert (Hne : kv :: d <> []) by discriminate.
      destruct (object_items_encoded (kv :: d) Hall Hne items Em)
        as (body & Ebody & Hbody).
      rewrite Ebody in Hn |- *. cbn [String.length] in Hn.
      cbn [append]. rewrite ?append_assoc. cbn [append].
      rewrite scan_once_object.
      change (body ++ String "}" rest) with (body ++ "}" ++ rest).
      rewrite Hbody, (dict_of_pairs_distinct _ Hkeys); [reflexivity | lia].
Qed.

End Decode.

(** *** The round trip *)

Lemma portable_plain v : portable v = true -> plain v = true.
Proof.
  induction v as [|b|z|f|t|l IH|l IH|d IH|a|z|f|z|f|c] using pyval_induction;
    intros H; try reflexivity; try discriminate H; simpl in H |- *.
  - rewrite forallb_forall in *. rewrite Forall_forall in IH. auto.
  - apply andb_true_iff in H as [_ H].
    rewrite forallb_forall in *. rewrite Forall_forall in IH. auto.
Qed.


Lemma lookup_map_values (g : pyval -> pyval) k d :
  lookup k (map (fun kv => (fst kv, g (snd kv))) d)
  = option_map g (lookup k d).
Proof.
  induction d as [|[k' v] d IH]; simpl; [reflexivity|].
  now destruct (String.eqb k k').
Qed.

Lemma to_plain_supported v : plain (to_plain v) = true -> supported v = true.
Proof.
  induction v as [|b|z|f|t|l IH|l IH|d IH|a|z|f|z|f|c] using pyval_induction;
    intros H; try reflexivity; try discriminate H; simpl in H |- *;
    rewrite forallb_map in H; rewrite forallb_forall in *;
    rewrite Forall_forall in IH; intros x Hx; apply (IH x Hx), (H x Hx).
Qed.

(** What [json.dumps] wrote decodes to the plain form of the value,
    provided that form is portable. *)
Lemma loads_dumps v :
  portable (to_plain v) = true ->
  exists text,
    json_dumps NumpyEncoder.default v = Ok text
    /\ json_loads text = Ok (to_plain v).
Proof.
  intros Hp.
  pose proof (to_plain_supported v (portable_plain _ Hp)) as Hs.
  unfold json_dumps, recursion_limit.
  rewrite (encode_supported 999 v Hs).
  set (o := fun _ : pyval => @Raise string TypeError).
  destruct (encode_with_plain_ok o (to_plain v) (portable_plain _ Hp))
    as [text Ht].
  exists text. split; [exact Ht|].
  unfold json_loads.
  pose proof (skip_ws_encoded o (to_plain v) text "" Hp Ht) as Hskip.
  rewrite append_nil_r in Hskip. rewrite Hskip.
  pose proof (scan_encoded o (to_plain v) Hp text Ht (scan_fuel text) ""
                eq_refl) as Hscan.
  rewrite append_nil_r in Hscan. rewrite Hscan; [reflexivity|].
  unfold scan_fuel. lia.
Qed.


(* ================================================================== *)
(** ** Decimal numerals and [float] *)

Lemma span_spec p s : forall a b,
  span p s = (a, b) -> s = a ++ b /\ all_chars p a = true.
Proof.
  induction s as [|c s IH]; intros a b H; simpl in H.
  - injection H as <- <-. auto.
  - destruct (p c) eqn:Hc.
    + destruct (span p s) as [a' b'] eqn:E. injection H as <- <-.
      destruct (IH a' b' eq_refl) as [-> Ha]. simpl. now rewrite Hc, Ha.
    + injection H as <- <-. auto.
Qed.











(* ================================================================== *)
(** ** The scanner has fuel enough *)

Lemma drop_while_length p s : String.length (drop_while p s) <= String.length s.
Proof.
  induction s as [|c s IH]; simpl; [lia|]. destruct (p c); simpl; lia.
Qed.

Lemma skip_ws_cons r c r1 :
  skip_ws r = String c r1 -> S (String.length r1) <= String.length r.
Proof.
  intros H. pose proof (drop_while_length is_json_ws r) as Hl.
  unfold skip_ws in H. rewrite H in Hl. exact Hl.
Qed.

Lemma skip_ws_length r : String.length (skip_ws r) <= String.length r.
Proof. apply drop_while_length. Qed.

Lemma span_length p s a b :
  span p s = (a, b) -> String.length b <= String.length s.
Proof.
  intros H. apply span_spec in H as [-> _]. rewrite length_append. lia.
Qed.

Lemma strip_prefix_length p : forall s r,
  strip_prefix p s = Some r ->
  String.length s = String.length p + String.length r.
Proof.
  induction p as [|a p IH]; intros s r H; simpl in *.
  - now injection H as <-.
  - destruct s as [|b s]; [discriminate|].
    destruct (Ascii.eqb a b); [|discriminate].
    simpl. now rewrite (IH s r H).
Qed.

Lemma scanstring_within_gen n : forall s,
  String.length s <= n -> within (A := string) s (scanstring s).
Proof.
  induction n as [|n IH]; intros s Hn.
  - destruct s; [simpl; discriminate | simpl in Hn; lia].
  - destruct s as [|c r]; [simpl; discriminate|].
    simpl in Hn. cbn [scanstring].
    destruct (Ascii.eqb c dquote); [simpl; lia|].
    destruct (Ascii.eqb c "\").
    + destruct r as [|e r']; [simpl; discriminate|].
      assert (Hplain :
                within (A := string) (String c (String e r'))
                  match unescape e with
                  | Some ch => cons_char ch (scanstring r')
                  | None => Raise JSONDecodeError
                  end).
      { destruct (unescape e); [|simpl; discriminate].
        assert (Hr : within (A := string) r' (scanstring r'))
          by (apply IH; simpl in Hn; lia).
        destruct (scanstring r') as [[t rest]|x]; simpl in *; [lia | auto]. }
      destruct e as [[|] [|] [|] [|] [|] [|] [|] [|]]; try exact Hplain.
      clear Hplain.
      destruct r' as [|h1 [|h2 [|h3 [|h4 r'']]]]; try (simpl; discriminate).
      destruct (hex_value h1), (hex_value h2), (hex_value h3), (hex_value h4);
        try (simpl; discriminate).
      destruct (_ <? 256)%N; [|simpl; discriminate].
      assert (Hr : within (A := string) r'' (scanstring r''))
        by (apply IH; simpl in Hn; lia).
      destruct (scanstring r'') as [[t rest]|x]; simpl in *; [lia | auto].
    + destruct (_ <? 32)%N; [simpl; discriminate|].
      assert (Hr : within (A := string) r (scanstring r))
        by (apply IH; lia).
      destruct (scanstring r) as [[t rest]|x]; simpl in *; [lia | auto].
Qed.

Lemma scanstring_within s : within (A := string) s (scanstring s).
Proof. now apply (scanstring_within_gen (String.length s)). Qed.

Lemma scan_integer_length s i r :
  scan_integer s = Some (i, r) -> String.length r < String.length s.
Proof.
  unfold scan_integer. destruct s as [|c s]; [discriminate|].
  destruct (Ascii.eqb c "-").
  - destruct s as [|c' s']; [discriminate|].
    destruct (Ascii.eqb c' "0"); [intros [= _ <-]; simpl; lia|].
    destruct (is_digit c'); [|discriminate].
    destruct (span is_digit (String c' s')) as [ds rest] eqn:E.
    intros [= _ <-]. apply span_length in E. simpl in *. lia.
  - destruct (Ascii.eqb c "0"); [intros [= _ <-]; simpl; lia|].
    destruct (is_digit c) eqn:Hc; [|discriminate].
    destruct (span is_digit (String c s)) as [ds rest] eqn:E.
    intros [= _ <-]. simpl in E. rewrite Hc in E.
    destruct (span is_digit s) as [a b] eqn:E'. injection E as _ <-.
    apply span_length in E'. simpl. lia.
Qed.

Lemma scan_frac_length s f r :
  scan_frac s = (f, r) -> String.length r <= String.length s.
Proof.
  unfold scan_frac. destruct s as [|c s]; [intros [= _ <-]; lia|].
  destruct (Ascii.eqb c "."); [|intros [= _ <-]; lia].
  destruct (span is_digit s) as [ds rest] eqn:E. apply span_length in E.
  destruct ds; intros [= _ <-]; simpl; lia.
Qed.

Lemma scan_exp_length s x r :
  scan_exp s = (x, r) -> String.length r <= String.length s.
Proof.
  unfold scan_exp. destruct s as [|c s]; [intros [= _ <-]; lia|].
  destruct (_ || _); [|intros [= _ <-]; lia].
  destruct s as [|c1 s1].
  - simpl. intros [= _ <-]. simpl. lia.
  - destruct (Ascii.eqb c1 "-").
    + destruct (span is_digit s1) as [ds rest] eqn:E. apply span_length in E.
      destruct ds; intros [= _ <-]; simpl; lia.
    + destruct (Ascii.eqb c1 "+").
      * destruct (span is_digit s1) as [ds rest] eqn:E.
        apply span_length in E.
        destruct ds; intros [= _ <-]; simpl; lia.
      * destruct (span is_digit (String c1 s1)) as [ds rest] eqn:E.
        apply span_length in E.
        destruct ds; intros [= _ <-]; simpl in *; lia.
Qed.

Lemma scan_number_within s v r :
  scan_number s = Some (v, r) ->
  String.length r < String.length s
  /\ (forall e, v = Raise e -> e = ValueError).
Proof.
  unfold scan_number.
  destruct (scan_integer s) as [[i r1]|] eqn:E1; [|discriminate].
  apply scan_integer_length in E1.
  destruct (scan_frac r1) as [f r2] eqn:E2. apply scan_frac_length in E2.
  destruct (scan_exp r2) as [x r3] eqn:E3. apply scan_exp_length in E3.
  assert (Hf : forall t e,
             match py_float t with
             | Ok g => Ok (PyFloat g)
             | Raise e' => Raise e'
             end = Raise e -> e = ValueError).
  { intros t e. destruct (py_float t) eqn:Ef; [discriminate|].
    intros [= <-]. now apply py_float_raises in Ef. }
  destruct f, x; intros [= <- <-]; (split; [lia|]); intros e He;
    try discriminate He; now apply Hf in He.
Qed.

Lemma scan_constant_within s vr :
  scan_constant s = Some vr -> String.length (snd vr) < String.length s.
Proof.
  unfold scan_constant.
  destruct (strip_prefix "null" s) eqn:E1;
    [intros [= <-]; apply strip_prefix_length in E1; simpl in *; lia|].
  destruct (strip_prefix "true" s) eqn:E2;
    [intros [= <-]; apply strip_prefix_length in E2; simpl in *; lia|].
  destruct (strip_prefix "false" s) eqn:E3; [|discriminate].
  intros [= <-]. apply strip_prefix_length in E3. simpl in *. lia.
Qed.

Lemma scan_nonfinite_within s vr :
  scan_nonfinite s = Some vr -> String.length (snd vr) < String.length s.
Proof.
  unfold scan_nonfinite.
  destruct (strip_prefix "NaN" s) eqn:E1;
    [intros [= <-]; apply strip_prefix_length in E1; simpl in *; lia|].
  destruct (strip_prefix "Infinity" s) eqn:E2;
    [intros [= <-]; apply strip_prefix_length in E2; simpl in *; lia|].
  destruct (strip_prefix "-Infinity" s) eqn:E3; [|discriminate].
  intros [= <-]. apply strip_prefix_length in E3. simpl in *. lia.
Qed.

(** With fuel for twice the length of the text, no scanner runs out. *)
Lemma scan_fuel_enough n :
  (forall s, 2 * String.length s + 1 <= n -> within s (scan_once n s))
  /\ (forall s, 2 * String.length s + 2 <= n -> within s (array_items n s))
  /\ (forall s, 2 * String.length s + 2 <= n -> within s (object_items n s)).
Proof.
  induction n as [|n (IHv & IHa & IHo)];
    [repeat split; intros s H; lia|].
  repeat split; intros s Hn.
  - cbn [scan_once]. destruct s as [|c r]; [simpl; discriminate|].
    cbn [String.length] in Hn.
    destruct (Ascii.eqb c dquote).
    { pose proof (scanstring_within r) as Hr.
      destruct (scanstring r) as [[t rest]|e]; simpl in *; [lia | auto]. }
    destruct (Ascii.eqb c "{").
    { destruct (skip_ws r) as [|c1 r1] eqn:Ews; [simpl; discriminate|].
      apply skip_ws_cons in Ews.
      destruct (Ascii.eqb c1 "}"); [simpl; lia|].
      destruct (Ascii.eqb c1 dquote); [|simpl; discriminate].
      assert (Ho : within r1 (object_items n r1)) by (apply IHo; lia).
      destruct (object_items n r1) as [[pairs rest]|e]; simpl in *;
        [lia | auto]. }
    destruct (Ascii.eqb c "[").
    { destruct (skip_ws r) as [|c1 r1] eqn:Ews; [simpl; discriminate|].
      apply skip_ws_cons in Ews.
      destruct (Ascii.eqb c1 "]"); [simpl; lia|].
      assert (Ha : within (String c1 r1) (array_items n (String c1 r1)))
        by (apply IHa; simpl; lia).
      destruct (array_items n (String c1 r1)) as [[items rest]|e];
        simpl in *; [lia | auto]. }
    destruct (scan_constant (String c r)) as [[v rest]|] eqn:Ec.
    { apply scan_constant_within in Ec. simpl in *. lia. }
    destruct (scan_number (String c r)) as [[[v|e] rest]|] eqn:En.
    { apply scan_number_within in En as [Hl _]. simpl in *. lia. }
    { apply scan_number_within in En as [_ He].
      rewrite (He e eq_refl). simpl. discriminate. }
    destruct (scan_nonfinite (String c r)) as [[v rest]|] eqn:Ef;
      [|simpl; discriminate].
    apply scan_nonfinite_within in Ef. simpl in *. lia.
  - cbn [array_items].
    assert (Hv : within s (scan_once n s)) by (apply IHv; lia).
    destruct (scan_once n s) as [[v r]|e]; [|exact Hv]. simpl in Hv.
    destruct (skip_ws r) as [|c r1] eqn:Ews; [simpl; discriminate|].
    apply skip_ws_cons in Ews.
    destruct (Ascii.eqb c "]"); [simpl; lia|].
    destruct (Ascii.eqb c ","); [|simpl; discriminate].
    pose proof (skip_ws_length r1) as Hs.
    assert (Ha : within (skip_ws r1) (array_items n (skip_ws r1)))
      by (apply IHa; lia).
    destruct (array_items n (skip_ws r1)) as [[vs rest]|e]; simpl in *;
      [lia | auto].
  - cbn [object_items].
    pose proof (scanstring_within s) as Hk.
    destruct (scanstring s) as [[key r]|e]; [|exact Hk]. simpl in Hk.
    destruct (skip_ws r) as [|c r1] eqn:Ews; [simpl; discriminate|].
    apply skip_ws_cons in Ews.
    destruct (Ascii.eqb c ":"); [|simpl; discriminate].
    pose proof (skip_ws_length r1) as Hs.
    assert (Hv : within (skip_ws r1) (scan_once n (skip_ws r1)))
      by (apply IHv; lia).
    destruct (scan_once n (skip_ws r1)) as [[v r2]|e]; [|exact Hv].
    simpl in Hv.
    destruct (skip_ws r2) as [|c2 r3] eqn:Ews2; [simpl; discriminate|].
    apply skip_ws_cons in Ews2.
    destruct (Ascii.eqb c2 "}"); [simpl; lia|].
    destruct (Ascii.eqb c2 ","); [|simpl; discriminate].
    destruct (skip_ws r3) as [|c3 r4] eqn:Ews3; [simpl; discriminate|].
    apply skip_ws_cons in Ews3.
    destruct (Ascii.eqb c3 dquote); [|simpl; discriminate].
    assert (Ho : within r4 (object_items n r4)) by (apply IHo; lia).
    destruct (object_items n r4) as [[kvs rest]|e]; simpl in *; [lia | auto].
Qed.

(** [json.loads] never runs out of fuel: its [RecursionError] is never
    raised. *)
Lemma json_loads_total s : json_loads s <> Raise RecursionError.
Proof.
  unfold json_loads.
  pose proof (skip_ws_length s) as Hs.
  assert (H : within (skip_ws s) (scan_once (scan_fuel s) (skip_ws s)))
    by (apply scan_fuel_enough; unfold scan_fuel; lia).
  destruct (scan_once (scan_fuel s) (skip_ws s)) as [[v rest]|e].
  - destruct (skip_ws rest); discriminate.
  - simpl in H. congruence.
Qed.

(* ================================================================== *)
(** ** Properties of the script *)

Section Claims.

Variables fr fs : pyval -> string.
Variable BADS : pyval -> pyval -> pyval -> pyval -> pyval -> optimizer.




(** C5.  In a run that ends normally the mapping given to the serializer
    is the library's result without its key [fun]: that key is absent,
    every other key has the value it had, and the entries that remain are
    the original ones in their order.  The final line carries the
    serialization of that mapping; when its plain form is portable, the
    text decodes to a mapping without the key [fun]. *)
Theorem fun_removed_before_serialization :
  forall (argv inputs : list string),
    fst (run fr fs BADS argv inputs) = Ok tt ->
    exists b result w1 text,
      launch BADS argv = Ok b
      /\ optimize (target fr fs) b (World inputs []) = (Ok result, w1)
      /\ json_dumps NumpyEncoder.default (PyDict (remove_key "fun" result))
         = Ok text
      /\ snd (run fr fs BADS argv inputs)
         = World (stdin w1) (trace w1 ++ [Printed (final_line text)])
      /\ lookup "fun" (remove_key "fun" result) = None
      /\ (forall k, k <> "fun" ->
            lookup k (remove_key "fun" result) = lookup k result)
      /\ remove_key "fun" result
         = filter (fun kv => negb (String.eqb "fun" (fst kv))) result
      /\ (portable (to_plain (PyDict (remove_key "fun" result))) = true ->
          exists d, json_loads text = Ok (PyDict d) /\ lookup "fun" d = None).
Proof.
  intros argv inputs Hok.
  destruct (launch BADS argv) as [b|e0] eqn:Hl.
  2:{ now rewrite (run_not_launched fr fs BADS argv inputs e0 Hl) in Hok. }
  destruct (run_spec fr fs BADS argv inputs b Hl)
    as (pairs & e & rest & Hopt & _ & _ & _ & Hrun).
  rewrite Hrun in *. clear Hrun.
  destruct e as [result|err|x l|x]; try discriminate.
  destruct (lookup "fun" result); [|discriminate].
  destruct (json_dumps NumpyEncoder.default (PyDict (remove_key "fun" result)))
    as [text|] eqn:E; [|discriminate].
  simpl in Hopt. rewrite List.app_nil_r in Hopt.
  exists b, result, (World rest (exchanges pairs)), text.
  repeat split; auto.
  - apply lookup_remove_same.
  - intros k Hk. now apply lookup_remove_other.
  - intros Hp. destruct (loads_dumps _ Hp) as (text' & Hd & Hload).
    rewrite E in Hd. injection Hd as <-.
    eexists. split; [exact Hload|].
    rewrite lookup_map_values, lookup_remove_same. reflexivity.
Qed.

(** C8.  A run that ends normally printed the requests of the dialogue,
    each followed by the reading of its reply, and then one FINAL_RESULT
    line, which is the last event: it is the only line that starts with
    FINAL_RESULT, everything printed before it is a request, and it is a
    single line. *)
Theorem final_result_once_at_end :
  forall (argv inputs : list string),
    fst (run fr fs BADS argv inputs) = Ok tt ->
    exists pairs text,
      trace (snd (run fr fs BADS argv inputs))
      = (exchanges pairs ++ [Printed (final_line text)])%list
      /\ printed (trace (snd (run fr fs BADS argv inputs)))
         = (map (fun p => request_line (fst p)) pairs ++ [final_line text])%list
      /\ filter is_final (printed (trace (snd (run fr fs BADS argv inputs))))
         = [final_line text]
      /\ forallb is_request (map (fun p => request_line (fst p)) pairs) = true
      /\ one_line (final_line text) = true.
Proof.
  intros argv inputs Hok.
  destruct (launch BADS argv) as [b|e0] eqn:Hl.
  2:{ now rewrite (run_not_launched fr fs BADS argv inputs e0 Hl) in Hok. }
  destruct (run_spec fr fs BADS argv inputs b Hl)
    as (pairs & e & rest & _ & _ & _ & _ & Hrun).
  rewrite Hrun in *. clear Hrun.
  destruct e as [result|err|x l|x]; try discriminate.
  destruct (lookup "fun" result); [|discriminate].
  destruct (json_dumps NumpyEncoder.default (PyDict (remove_key "fun" result)))
    as [text|] eqn:E; [|discriminate].
  exists pairs, text. cbn [snd trace].
  rewrite printed_app, printed_exchanges. simpl printed.
  repeat split.
  - rewrite filter_app, <- printed_exchanges, filter_final_exchanges.
    reflexivity.
  - rewrite forallb_forall. intros l Hin. apply in_map_iff in Hin as (q & <- & _).
    reflexivity.
  - apply ascii_text_one_line. unfold final_line, ascii_text.
    rewrite all_chars_app. apply json_dumps_text in E.
    unfold ascii_text in E. now rewrite E.
Qed.

(** C9.  When the library returns a mapping without the key [fun], the
    script ends with an uncaught [KeyError] on that key and exit status
    1, in the state the dialogue left: no FINAL_RESULT line is printed. *)
Theorem missing_fun_raises_KeyError :
  forall (argv inputs : list string) (b : optimizer) (result : dict)
         (w1 : world),
    launch BADS argv = Ok b ->
    optimize (target fr fs) b (World inputs []) = (Ok result, w1) ->
    lookup "fun" result = None ->
    run fr fs BADS argv inputs = (Raise (KeyError "fun"), w1)
    /\ exit_status (fst (run fr fs BADS argv inputs)) = 1%Z
    /\ filter is_final (printed (trace w1)) = [].
Proof.
  intros argv inputs b result w1 Hl Hrun Hmiss.
  assert (E : run fr fs BADS argv inputs = (Raise (KeyError "fun"), w1)).
  { unfold run. now rewrite main_unfold, Hl, Hrun, del_item_spec, Hmiss. }
  rewrite E. repeat split.
  destruct (optimize_spec fr fs b (World inputs []))
    as (pairs & e & rest & Hspec & _).
  rewrite Hrun in Hspec. destruct e; try discriminate.
  injection Hspec as _ ->. simpl. rewrite List.app_nil_r.
  apply filter_final_exchanges.
Qed.


End Claims.

(** C1.  When [json.dumps] raises, so does [jsonify]: the handler's first
    statement evaluates the name [logging], which the module never binds,
    and [str(obj)] is not reached.  With a result that holds a set, the
    run ends with [NameError] and prints no FINAL_RESULT line. *)
Theorem jsonify_fallback_raises_NameError :
  (forall (fr fs : pyval -> string) (obj : pyval) (e : exn),
      json_dumps NumpyEncoder.default obj = Raise e ->
      jsonify fr fs obj = Raise (NameError "logging"))
  /\ json_dumps NumpyEncoder.default (PyDict [("x", PyObject "set")])
     = Raise TypeError
  /\ jsonify no_repr no_repr (PyDict [("x", PyObject "set")])
     = Raise (NameError "logging")
  /\ run no_repr no_repr
       (returning [("fun", PyObject "function"); ("x", PyObject "set")])
       sample_argv []
     = (Raise (NameError "logging"), World [] []).
Proof.
  split.
  - intros fr fs obj e H. now rewrite jsonify_spec, H.
  - repeat split; vm_compute; reflexivity.
Qed.





(* ================================================================== *)
(** ** The properties on the sample session *)




Lemma fun_removed_witness :
  fst (run no_repr no_repr sample_BADS sample_argv ["2.0"; "1.25"]) = Ok tt
  /\ exists b result w1 text,
       launch sample_BADS sample_argv = Ok b
       /\ optimize (target no_repr no_repr) b (World ["2.0"; "1.25"] [])
          = (Ok result, w1)
       /\ json_dumps NumpyEncoder.default (PyDict (remove_key "fun" result))
          = Ok text
       /\ snd (run no_repr no_repr sample_BADS sample_argv ["2.0"; "1.25"])
          = World (stdin w1) (trace w1 ++ [Printed (final_line text)])
       /\ lookup "fun" (remove_key "fun" result) = None
       /\ (forall k, k <> "fun" ->
             lookup k (remove_key "fun" result) = lookup k result)
       /\ remove_key "fun" result
          = filter (fun kv => negb (String.eqb "fun" (fst kv))) result
       /\ (portable (to_plain (PyDict (remove_key "fun" result))) = true ->
           exists d, json_loads text = Ok (PyDict d) /\ lookup "fun" d = None).
Proof.
  split; [vm_compute; reflexivity|].
  apply (fun_removed_before_serialization no_repr no_repr sample_BADS).
  vm_compute. reflexivity.
Defined.

Lemma final_result_witness :
  fst (run no_repr no_repr sample_BADS sample_argv ["2.0"; "1.25"]) = Ok tt
  /\ exists pairs text,
       trace (snd (run no_repr no_repr sample_BADS sample_argv ["2.0"; "1.25"]))
       = (exchanges pairs ++ [Printed (final_line text)])%list
       /\ printed
            (trace
               (snd (run no_repr no_repr sample_BADS sample_argv
                       ["2.0"; "1.25"])))
          = (map (fun p => request_line (fst p)) pairs ++ [final_line text])%list
       /\ filter is_final
            (printed
               (trace
                  (snd (run no_repr no_repr sample_BADS sample_argv
                          ["2.0"; "1.25"]))))
          = [final_line text]
       /\ forallb is_request (map (fun p => request_line (fst p)) pairs) = true
       /\ one_line (final_line text) = true.
Proof.
  split; [vm_compute; reflexivity|].
  apply (final_result_once_at_end no_repr no_repr sample_BADS).
  vm_compute. reflexivity.
Defined.

Lemma missing_fun_witness :
  launch (returning [("x", NpArray (NdAxis [NdItem (ItFloat half)]))])
    sample_argv
  = Ok (Return [("x", NpArray (NdAxis [NdItem (ItFloat half)]))])
  /\ optimize (target no_repr no_repr)
       (Return [("x", NpArray (NdAxis [NdItem (ItFloat half)]))])
       (World ["2.0"] [])
     = (Ok [("x", NpArray (NdAxis [NdItem (ItFloat half)]))], World ["2.0"] [])
  /\ lookup "fun" [("x", NpArray (NdAxis [NdItem (ItFloat half)]))] = None
  /\ run no_repr no_repr
       (returning [("x", NpArray (NdAxis [NdItem (ItFloat half)]))])
       sample_argv ["2.0"]
     = (Raise (KeyError "fun"), World ["2.0"] [])
  /\ exit_status
       (fst (run no_repr no_repr
               (returning [("x", NpArray (NdAxis [NdItem (ItFloat half)]))])
               sample_argv ["2.0"]))
     = 1%Z
  /\ filter is_final (printed (trace (World ["2.0"] []))) = [].
Proof.
  split; [vm_compute; reflexivity|]. split; [reflexivity|].
  split; [reflexivity|].
  apply (missing_fun_raises_KeyError no_repr no_repr
           (returning [("x", NpArray (NdAxis [NdItem (ItFloat half)]))])
           sample_argv ["2.0"]
           (Return [("x", NpArray (NdAxis [NdItem (ItFloat half)]))])
           [("x", NpArray (NdAxis [NdItem (ItFloat half)]))]
           (World ["2.0"] [])).
  - vm_compute. reflexivity.
  - reflexivity.
  - reflexivity.
Defined.


(* ================================================================== *)
(** ** Further properties of the script *)

(** *** Every run, whatever its end *)



Lemma exchanges_not_printed_last pairs t l :
  exchanges pairs <> (t ++ [Printed l])%list.
Proof.
  destruct pairs as [|p r] using rev_ind.
  - simpl. now destruct t.
  - unfold exchanges. rewrite flat_map_app. simpl.
    change [Printed (request_line (fst p)); Read (snd p)]
      with ([Printed (request_line (fst p))] ++ [Read (snd p)])%list.
    rewrite List.app_assoc. intros E.
    apply app_inj_tail in E as [_ E]. discriminate.
Qed.


(** The four ways a run of the script ends, with the trace each leaves:
    an exception outside [target], after a number of answered requests; a
    reply that is no number; the end of standard input under a request;
    the final line. *)
Lemma run_cases (fr fs : pyval -> string) BADS argv inputs :
  (exists pairs rest e,
      run fr fs BADS argv inputs = (Raise e, World rest (exchanges pairs))
      /\ inputs = (map snd pairs ++ rest)%list)
  \/ (exists pairs rest x l,
        run fr fs BADS argv inputs
        = (Raise ValueError,
           World rest (exchanges pairs ++ [Printed (request_line x); Read l]))
        /\ inputs = (map snd pairs ++ l :: rest)%list)
  \/ (exists pairs x,
        run fr fs BADS argv inputs
        = (Raise EOFError,
           World [] (exchanges pairs ++ [Printed (request_line x)]))
        /\ inputs = map snd pairs)
  \/ (exists pairs rest text,
        run fr fs BADS argv inputs
        = (Ok tt, World rest (exchanges pairs ++ [Printed (final_line text)]))
        /\ inputs = (map snd pairs ++ rest)%list
        /\ ascii_text text = true).
Proof.
  destruct (launch BADS argv) as [b|e0] eqn:Hl.
  2:{ left. exists [], inputs, e0.
      now rewrite (run_not_launched fr fs BADS argv inputs e0 Hl). }
  destruct (run_spec fr fs BADS argv inputs b Hl)
    as (pairs & e & rest & _ & Hin & _ & He & Hrun).
  rewrite Hrun. clear Hrun.
  destruct e as [result|err|x l|x]; simpl in Hin.
  - destruct (lookup "fun" result); [|left; now eauto].
    destruct (json_dumps NumpyEncoder.default (PyDict (remove_key "fun" result)))
      as [text|] eqn:E; [|left; now eauto].
    right. right. right. exists pairs, rest, text.
    repeat split; auto. now apply json_dumps_text in E.
  - left. exists pairs, rest, err. simpl. rewrite List.app_nil_r. auto.
  - right. left. exists pairs, rest, x, l. auto.
  - right. right. left. subst rest. exists pairs, x.
    rewrite List.app_nil_r in Hin. auto.
Qed.

(** X1.  A run ends with exit status 0 exactly when it printed a
    FINAL_RESULT line, and with status 1 exactly when it printed none:
    whatever the configuration, the library and the replies, the final
    line tells success from failure. *)
Theorem final_line_tells_success :
  forall (fr fs : pyval -> string)
         (BADS : pyval -> pyval -> pyval -> pyval -> pyval -> optimizer)
         (argv inputs : list string),
    let out := run fr fs BADS argv inputs in
    (exit_status (fst out) = 0%Z
     <-> filter is_final (printed (trace (snd out))) <> [])
    /\ (exit_status (fst out) = 1%Z
        <-> filter is_final (printed (trace (snd out))) = []).
Proof.
  intros fr fs BADS argv inputs out. subst out.
  destruct (run_cases fr fs BADS argv inputs)
    as [(pairs & rest & e & -> & _)
       |[(pairs & rest & x & l & -> & _)
        |[(pairs & x & -> & _)|(pairs & rest & text & -> & _)]]];
    cbn [fst snd trace exit_status];
    rewrite ?printed_app, ?filter_app, filter_final_exchanges; simpl;
    split; split; intros H; try reflexivity; try discriminate H;
    try (exfalso; now apply H).
  discriminate.
Qed.



(** X4.  When the last event of a run is a request, without a reply read
    after it, standard input was at its end: every line given was read as
    a reply to an earlier request, the script ended with an uncaught
    [EOFError] and exit status 1, and no FINAL_RESULT line was printed. *)
Theorem unanswered_request_is_fatal :
  forall (fr fs : pyval -> string)
         (BADS : pyval -> pyval -> pyval -> pyval -> pyval -> optimizer)
         (argv inputs : list string) (t : list event) (l : string),
    trace (snd (run fr fs BADS argv inputs)) = (t ++ [Printed l])%list ->
    is_request l = true ->
    fst (run fr fs BADS argv inputs) = Raise EOFError
    /\ exit_status (fst (run fr fs BADS argv inputs)) = 1%Z
    /\ stdin (snd (run fr fs BADS argv inputs)) = []
    /\ consumed t = inputs
    /\ (exists pairs x, t = exchanges pairs /\ l = request_line x)
    /\ filter is_final (printed (trace (snd (run fr fs BADS argv inputs)))) = [].
Proof.
  intros fr fs BADS argv inputs t l Ht Hl.
  destruct (run_cases fr fs BADS argv inputs)
    as [(pairs & rest & e & E & _)
       |[(pairs & rest & x & l' & E & _)
        |[(pairs & x & E & Hin)|(pairs & rest & text & E & _)]]];
    rewrite E in *; cbn [fst snd trace stdin exit_status] in *.
  - exfalso. now apply exchanges_not_printed_last in Ht.
  - exfalso.
    change (exchanges pairs ++ [Printed (request_line x); Read l'])%list
      with (exchanges pairs ++ [Printed (request_line x)] ++ [Read l'])%list
      in Ht.
    rewrite List.app_assoc in Ht. apply app_inj_tail in Ht as [_ Ht].
    discriminate.
  - apply app_inj_tail in Ht as [<- [= <-]].
    rewrite consumed_exchanges, printed_app, filter_app, filter_final_exchanges.
    repeat split; eauto.
  - exfalso. apply app_inj_tail in Ht as [_ [= <-]]. discriminate Hl.
Qed.

(** *** The start of the script *)



(** *** What [jsonify] writes and what it refuses *)




(** *** The request as JSON *)

Lemma mapM_ok_map {A B} (f : A -> res B) (g : A -> B) l :
  Forall (fun a => f a = Ok (g a)) l -> mapM f l = Ok (map g l).
Proof.
  induction 1 as [|a r Ha _ IH]; simpl; [reflexivity|]. now rewrite Ha, IH.
Qed.

Lemma encode_float_finite f : is_finite f = true -> encode_float f = float_repr f.
Proof. now destruct f. Qed.

(** On a point of integers and finite floats the encoder writes what
    [repr] writes for the nested list. *)
Lemma encode_json_point o a :
  json_point a = true ->
  encode_with o (tolist a) = Ok (plain_repr (tolist a))
  /\ portable (tolist a) = true.
Proof.
  induction a as [i|sub IH] using ndarray_induction; intros H.
  - destruct i as [z|f|b]; simpl in H |- *; [auto| |discriminate].
    apply andb_true_iff in H as [Hf Hr].
    unfold plain_repr. cbn [py_repr]. now rewrite (encode_float_finite f Hf).
  - cbn [json_point] in H. cbn [tolist encode_with portable].
    assert (Hall : Forall (fun a => encode_with o (tolist a)
                                    = Ok (plain_repr (tolist a))
                                    /\ portable (tolist a) = true) sub).
    { rewrite Forall_forall in IH |- *. rewrite forallb_forall in H.
      intros a Ha. apply (IH a Ha), H, Ha. }
    split.
    + rewrite mapM_map.
      rewrite (mapM_ok_map _ (fun a => plain_repr (tolist a))).
      * unfold plain_repr at 2. rewrite py_repr_list, map_map. reflexivity.
      * eapply Forall_impl; [|exact Hall]. now intros a [E _].
    + rewrite forallb_map, forallb_forall. rewrite Forall_forall in Hall.
      intros a Ha. now apply Hall.
Qed.

(** Such a point is written alike by [repr] and by the two encoders, and
    the text reads back. *)
Lemma json_point_text x :
  json_point x = true ->
  json_dumps JSONEncoder_default (tolist x) = Ok (plain_repr (tolist x))
  /\ json_dumps NumpyEncoder.default (NpArray x) = Ok (plain_repr (tolist x))
  /\ json_loads (plain_repr (tolist x)) = Ok (tolist x).
Proof.
  intros H.
  assert (E : json_dumps JSONEncoder_default (tolist x)
              = Ok (plain_repr (tolist x))).
  { unfold json_dumps, recursion_limit. cbn [encode].
    now apply encode_json_point. }
  destruct (json_dumps_supported (NpArray x) eq_refl) as [Es _].
  cbn [to_plain] in Es. rewrite Es, E.
  repeat split.
  destruct (loads_dumps (NpArray x)) as (text & Hd & Hl).
  - cbn [to_plain]. now apply (encode_json_point (fun _ => Raise TypeError)).
  - rewrite Es, E in Hd. injection Hd as <-. exact Hl.
Qed.

(** X8.  When the entries of the point are integers and finite floats
    (floats whose [repr] reads back), the text after REQUEST_EVALUATION is
    JSON: it is what [json.dumps] writes for the nested list, it is what
    [NumpyEncoder] writes for the array in the final result, and
    [json.loads] decodes it to the nested list of the point. *)
Theorem request_payload_is_json :
  forall (x : ndarray),
    json_point x = true ->
    request_line x = "REQUEST_EVALUATION " ++ plain_repr (tolist x)
    /\ json_dumps JSONEncoder_default (tolist x) = Ok (plain_repr (tolist x))
    /\ json_dumps NumpyEncoder.default (NpArray x) = Ok (plain_repr (tolist x))
    /\ json_loads (plain_repr (tolist x)) = Ok (tolist x).
Proof.
  intros x H. split; [reflexivity | now apply json_point_text].
Qed.

(** *** Blanks around a reply *)















(** *** A request that is no JSON *)

Lemma scan_once_python_only n i rest :
  python_only i = true ->
  scan_once (S n) (plain_repr (item_value i) ++ rest) = Raise JSONDecodeError.
Proof.
  destruct i as [z|f|b]; [discriminate| |]; intros H.
  - destruct f as [s|s| |s m e]; try discriminate H; [destruct s|]; reflexivity.
  - destruct b; reflexivity.
Qed.

Lemma scan_once_json_item n i rest :
  json_item i = true -> delimited rest = true ->
  scan_once (S n) (plain_repr (item_value i) ++ rest) = Ok (item_value i, rest).
Proof.
  destruct i as [z|f|b]; [| |discriminate]; intros H Hd.
  - now apply scan_once_int.
  - simpl in H. apply andb_true_iff in H as [Hf Hr].
    unfold plain_repr. cbn [item_value py_repr].
    rewrite <- (encode_float_finite f Hf). now apply scan_once_float.
Qed.

(** No entry is written with a blank or a closing bracket in front. *)
Lemma item_repr_head i :
  json_item i = true \/ python_only i = true ->
  exists c t, plain_repr (item_value i) = String c t /\ value_start c = true.
Proof.
  destruct i as [z|f|b]; intros [H|H]; try discriminate H.
  - destruct (str_of_Z_head z) as (c & s & E & Hc).
    exists c, s. split; [exact E | now apply number_start].
  - simpl in H. apply andb_true_iff in H as [Hf Hr].
    destruct (encoded_head (fun _ => Raise TypeError) (PyFloat f)
                (encode_float f) Hr eq_refl) as (c & t & E & Hc).
    rewrite (encode_float_finite f Hf) in E. eauto.
  - destruct f as [s|s| |s m e]; try discriminate H.
    + destruct s; [now exists "-"%char, "inf" | now exists "i"%char, "nf"].
    + now exists "n"%char, "an".
  - destruct b; [now exists "T"%char, "rue" | now exists "F"%char, "alse"].
Qed.

Lemma array_items_python_only before : forall bad after n rest,
  forallb json_item before = true ->
  python_only bad = true ->
  String.length
    (String.concat ", "
       (map (fun i => plain_repr (item_value i)) (before ++ bad :: after))) < n ->
  array_items n
    (String.concat ", "
       (map (fun i => plain_repr (item_value i)) (before ++ bad :: after))
     ++ rest)
  = Raise JSONDecodeError.
Proof.
  induction before as [|v l IH]; intros bad after n rest Hb Hbad Hn.
  - cbn [List.app map] in *.
    destruct (item_repr_head bad (or_intror Hbad)) as (c & t & E & _).
    assert (E2 : exists more,
               String.concat ", "
                 (plain_repr (item_value bad)
                  :: map (fun i => plain_repr (item_value i)) after)
               = plain_repr (item_value bad) ++ more).
    { cbn [String.concat]. destruct (map _ after); [exists ""|eauto].
      now rewrite append_nil_r. }
    destruct E2 as [more E2]. rewrite E2 in *. rewrite append_assoc.
    rewrite E in Hn. cbn [append String.length] in Hn.
    destruct n as [|[|m]]; [lia|lia|].
    cbn [array_items]. now rewrite (scan_once_python_only m bad _ Hbad).
  - cbn [forallb] in Hb. apply andb_true_iff in Hb as [Hv Hl].
    assert (Hnext : exists c t,
               String.concat ", "
                 (map (fun i => plain_repr (item_value i)) (l ++ bad :: after))
               = String c t /\ value_start c = true).
    { destruct l as [|v2 l2].
      - destruct (item_repr_head bad (or_intror Hbad)) as (c & t & E & Hc).
        destruct (concat_head ", " _
                    (map (fun i => plain_repr (item_value i)) after) c t E)
          as (t' & Et). exists c, t'. split; [exact Et | exact Hc].
      - cbn [forallb] in Hl. apply andb_true_iff in Hl as [Hv2 _].
        destruct (item_repr_head v2 (or_introl Hv2)) as (c & t & E & Hc).
        destruct (concat_head ", " _
                    (map (fun i => plain_repr (item_value i))
                       (l2 ++ bad :: after)) c t E)
          as (t' & Et). exists c, t'. split; [exact Et | exact Hc]. }
    destruct Hnext as (c & t & Enext & Hc).
    change (String.concat ", "
              (map (fun i => plain_repr (item_value i))
                 ((v :: l) ++ bad :: after)))
      with (String.concat ", "
              (plain_repr (item_value v)
               :: map (fun i => plain_repr (item_value i)) (l ++ bad :: after)))
      in *.
    set (tail := map (fun i => plain_repr (item_value i)) (l ++ bad :: after))
      in *.
    assert (Etail : tail <> []) by (unfold tail; now destruct l).
    destruct tail as [|s2 more2] eqn:Et; [congruence|].
    change (String.concat ", " (plain_repr (item_value v) :: s2 :: more2))
      with (plain_repr (item_value v) ++ ", " ++ String.concat ", " (s2 :: more2))
      in *.
    rewrite !length_append in Hn. cbn [String.length] in Hn.
    destruct n as [|[|m]]; [lia|lia|].
    rewrite !append_assoc. cbn [append].
    rewrite (array_items_more (S m) (item_value v) _
               (String.concat ", " (s2 :: more2) ++ rest)).
    + rewrite Enext at 1. cbn [append]. rewrite (skip_ws_value c _ Hc).
      change (String c (t ++ rest)) with (String c t ++ rest).
      rewrite <- Enext. unfold tail in Et. rewrite <- Et.
      rewrite (IH bad after (S m) rest Hl Hbad); [reflexivity|].
      rewrite Et. lia.
    + apply scan_once_json_item; [exact Hv | reflexivity].
Qed.

(** X10.  A one-dimensional point that holds a boolean or a float that is
    not finite, after entries that are integers and finite floats, is
    printed in the way of Python ([True], [inf], [nan]): the text after
    REQUEST_EVALUATION is then no JSON, and [json.loads] raises on it. *)
Theorem python_only_request_is_not_json :
  forall (before after : list npitem) (bad : npitem),
    forallb json_item before = true ->
    python_only bad = true ->
    json_loads
      (plain_repr (tolist (NdAxis (map NdItem (before ++ bad :: after)))))
    = Raise JSONDecodeError.
Proof.
  intros before after bad Hb Hbad.
  unfold plain_repr. cbn [tolist]. rewrite py_repr_list, !map_map.
  change (fun x => py_repr (fun _ => "") (tolist (NdItem x)))
    with (fun i => plain_repr (item_value i)).
  set (body := String.concat ", "
                 (map (fun i => plain_repr (item_value i))
                    (before ++ bad :: after))).
  assert (Hhead : exists c t, body = String c t /\ value_start c = true).
  { unfold body. destruct before as [|v l].
    - destruct (item_repr_head bad (or_intror Hbad)) as (c & t & E & Hc).
      destruct (concat_head ", " _
                  (map (fun i => plain_repr (item_value i)) after) c t E)
        as (t' & Et). exists c, t'. split; [exact Et | exact Hc].
    - cbn [forallb] in Hb. apply andb_true_iff in Hb as [Hv _].
      destruct (item_repr_head v (or_introl Hv)) as (c & t & E & Hc).
      destruct (concat_head ", " _
                  (map (fun i => plain_repr (item_value i))
                     (l ++ bad :: after)) c t E)
        as (t' & Et). exists c, t'. split; [exact Et | exact Hc]. }
  destruct Hhead as (c & t & Eb & Hc).
  unfold json_loads, scan_fuel.
  change (skip_ws ("[" ++ body ++ "]")) with ("[" ++ body ++ "]").
  replace (2 * String.length ("[" ++ body ++ "]") + 1)
    with (S (2 * String.length ("[" ++ body ++ "]"))) by lia.
  cbn [append]. rewrite Eb at 2. cbn [append].
  rewrite (scan_once_array _ c _ Hc).
  change (String c (t ++ "]")) with (String c t ++ "]"). rewrite <- Eb.
  unfold body.
  rewrite (array_items_python_only before bad after _ "]" Hb Hbad);
    [reflexivity|].
  fold body. cbn [String.length]. rewrite length_append. lia.
Qed.

(** *** What the reader of the two lines gets *)





(** *** When the final line is printed *)



(** *** Lines that are never read *)

Lemma optimize_more_input (fr fs : pyval -> string) (more : list string) b :
  forall inp t,
    fst (optimize (target fr fs) b (World inp t)) <> Raise EOFError ->
    optimize (target fr fs) b (World (inp ++ more) t)
    = (fst (optimize (target fr fs) b (World inp t)),
       World (stdin (snd (optimize (target fr fs) b (World inp t))) ++ more)
             (trace (snd (optimize (target fr fs) b (World inp t))))).
Proof.
  induction b as [x next IH|result|e]; intros inp t H;
    [|reflexivity|reflexivity].
  cbn [optimize] in H |- *. destruct inp as [|line rest].
  - rewrite target_unanswered in H. now contradiction H.
  - rewrite <- List.app_comm_cons.
    rewrite (target_answered fr fs x line rest t) in H |- *.
    rewrite (target_answered fr fs x line (rest ++ more) t).
    destruct (py_float line) as [y|e]; [exact (IH y rest _ H) | reflexivity].
Qed.

(** X14.  Lines of standard input that come after the last reply read
    change nothing: unless the run ended with [EOFError], the same run
    with more lines appended to its input ends in the same way, with the
    same trace, and leaves the new lines unread after those it had left. *)
Theorem unread_input_is_ignored :
  forall (fr fs : pyval -> string)
         (BADS : pyval -> pyval -> pyval -> pyval -> pyval -> optimizer)
         (argv inputs more : list string),
    fst (run fr fs BADS argv inputs) <> Raise EOFError ->
    run fr fs BADS argv (inputs ++ more)
    = (fst (run fr fs BADS argv inputs),
       World (stdin (snd (run fr fs BADS argv inputs)) ++ more)
             (trace (snd (run fr fs BADS argv inputs)))).
Proof.
  intros fr fs BADS argv inputs more. unfold run. rewrite !main_unfold.
  destruct (launch BADS argv) as [b|e]; [|reflexivity].
  intros H.
  rewrite (optimize_more_input fr fs more b inputs []).
  - destruct (optimize (target fr fs) b (World inputs [])) as [[result|e] w1];
      cbn [fst snd]; [|reflexivity].
    destruct (del_item result "fun") as [d|e]; [|reflexivity].
    destruct (jsonify fr fs (PyDict d)) as [text|e]; reflexivity.
  - intros E. apply H.
    destruct (optimize (target fr fs) b (World inputs [])) as [[result|e] w1];
      cbn [fst] in E |- *; [discriminate | congruence].
Qed.

(** *** The further properties on sample inputs *)

Lemma unanswered_request_witness :
  trace (snd (run no_repr no_repr sample_BADS sample_argv ["2.0"]))
  = ([Printed "REQUEST_EVALUATION [0.0]"; Read "2.0"]
     ++ [Printed "REQUEST_EVALUATION [0.5]"])%list
  /\ is_request "REQUEST_EVALUATION [0.5]" = true
  /\ fst (run no_repr no_repr sample_BADS sample_argv ["2.0"]) = Raise EOFError
  /\ exit_status (fst (run no_repr no_repr sample_BADS sample_argv ["2.0"]))
     = 1%Z
  /\ stdin (snd (run no_repr no_repr sample_BADS sample_argv ["2.0"])) = []
  /\ consumed [Printed "REQUEST_EVALUATION [0.0]"; Read "2.0"] = ["2.0"]
  /\ (exists pairs x,
         [Printed "REQUEST_EVALUATION [0.0]"; Read "2.0"] = exchanges pairs
         /\ "REQUEST_EVALUATION [0.5]" = request_line x)
  /\ filter is_final
       (printed
          (trace (snd (run no_repr no_repr sample_BADS sample_argv ["2.0"]))))
     = [].
Proof.
  split; [vm_compute; reflexivity|]. split; [vm_compute; reflexivity|].
  apply (unanswered_request_is_fatal no_repr no_repr sample_BADS sample_argv
           ["2.0"] [Printed "REQUEST_EVALUATION [0.0]"; Read "2.0"]
           "REQUEST_EVALUATION [0.5]").
  - vm_compute. reflexivity.
  - vm_compute. reflexivity.
Defined.


Lemma request_payload_witness :
  json_point sample_point = true
  /\ request_line sample_point
     = "REQUEST_EVALUATION " ++ plain_repr (tolist sample_point)
  /\ json_dumps JSONEncoder_default (tolist sample_point)
     = Ok (plain_repr (tolist sample_point))
  /\ json_dumps NumpyEncoder.default (NpArray sample_point)
     = Ok (plain_repr (tolist sample_point))
  /\ json_loads (plain_repr (tolist sample_point)) = Ok (tolist sample_point).
Proof.
  split; [vm_compute; reflexivity|].
  apply (request_payload_is_json sample_point). vm_compute. reflexivity.
Defined.


Lemma python_only_request_witness :
  forallb json_item [ItFloat half] = true
  /\ python_only (ItFloat S754_nan) = true
  /\ json_loads
       (plain_repr
          (tolist
             (NdAxis
                (map NdItem ([ItFloat half] ++ ItFloat S754_nan :: [ItInt 1])))))
     = Raise JSONDecodeError.
Proof.
  split; [vm_compute; reflexivity|]. split; [vm_compute; reflexivity|].
  apply (python_only_request_is_not_json [ItFloat half] [ItInt 1]
           (ItFloat S754_nan));
    vm_compute; reflexivity.
Defined.



Lemma unread_input_witness :
  fst (run no_repr no_repr sample_BADS sample_argv ["2.0"; "1.25"])
  <> Raise EOFError
  /\ run no_repr no_repr sample_BADS sample_argv
       (["2.0"; "1.25"] ++ ["7"; "stop"])
     = (fst (run no_repr no_repr sample_BADS sample_argv ["2.0"; "1.25"]),
        World
          (stdin (snd (run no_repr no_repr sample_BADS sample_argv
                         ["2.0"; "1.25"])) ++ ["7"; "stop"])
          (trace (snd (run no_repr no_repr sample_BADS sample_argv
                         ["2.0"; "1.25"])))).
Proof.
  split; [vm_compute; discriminate|].
  apply (unread_input_is_ignored no_repr no_repr sample_BADS sample_argv
           ["2.0"; "1.25"] ["7"; "stop"]).
  vm_compute. discriminate.
Defined.
